(** * backup/snapshots.py: the snapshot records and their reconciled aggregate

    A shallow embedding of the three classes of [backup/snapshots.py]
    ([DriveSnapshot], [HASnapshot], [Snapshot]) and the properties of them
    that the specification states.

    Python objects that are mutated and shared (the raw dictionaries handed
    to [DriveSnapshot]) live in an explicit heap; everything that can raise
    returns a [result].  Left out are the methods that only print
    ([__str__], [__format__], [__repr__]) and [DriveSnapshot.id]. *)

From Stdlib Require Import ZArith String DecimalString Lia.
From stdpp Require Import base option gmap strings.

Local Open Scope string_scope.
Local Open Scope Z_scope.

(** ** Exceptions and results *)

(** The exceptions the module can raise.  [Unsupported] is not a Python
    exception: it marks an evaluation that leaves the modelled fragment of
    Python (the [repr] of a dictionary, [float()] of a string, a dangling
    reference), so that no theorem below speaks about such a run by
    accident. *)
Inductive exn :=
  | KeyError (key : string)
  | TypeError
  | ValueError
  | AttributeError (attr : string)
  | OverflowError
  | Unsupported.

Inductive result (A : Type) :=
  | Ok (a : A)
  | Raise (e : exn).
Arguments Ok {A} a.
Arguments Raise {A} e.

#[global] Instance result_ret : MRet result := fun _ a => Ok a.
#[global] Instance result_bind : MBind result := fun _ _ f m =>
  match m with
  | Ok a => f a
  | Raise e => Raise e
  end.
#[global] Instance result_fmap : FMap result := fun _ _ f m =>
  match m with
  | Ok a => Ok (f a)
  | Raise e => Raise e
  end.

(** ** Python values and dictionaries *)

Definition loc := positive.

(** The values a raw record holds: [None], booleans, integers, strings and
    references to (mutable, shared) dictionaries. *)
Inductive value :=
  | VNone
  | VBool (b : bool)
  | VInt (z : Z)
  | VStr (s : string)
  | VRef (l : loc).

#[global] Instance value_eq_dec : EqDecision value.
Proof. solve_decision. Defined.

(** A dictionary with string keys, and the heap of dictionaries. *)
Abbreviation dict := (gmap string value).
Abbreviation heap := (gmap loc (gmap string value)).

(** [d.get(k)]: [None] when the key is absent. *)
Definition dict_get (d : dict) (k : string) : value :=
  default VNone (d !! k).

(** [d[k]] on a dictionary: [KeyError] when the key is absent. *)
Definition dict_item (d : dict) (k : string) : result value :=
  match d !! k with
  | Some v => Ok v
  | None => Raise (KeyError k)
  end.

Definition deref (h : heap) (l : loc) : result dict :=
  match h !! l with
  | Some d => Ok d
  | None => Raise Unsupported
  end.

(** [d.copy()] for the dictionary at [l]: a new dictionary with the same
    entries.  The copy is shallow: an entry that is a reference is copied as
    a reference. *)
Definition dict_copy (h : heap) (l : loc) : result (loc * heap) :=
  d ← deref h l;
  let l' := fresh (dom h) in
  Ok (l', <[l' := d]> h).

(** [str(n)] for an integer. *)
Definition str_int (n : Z) : string := NilZero.string_of_int (Z.to_int n).

(** [str(b)] for a boolean. *)
Definition str_bool (b : bool) : string := if b then "True" else "False".

(** [str(v)]. *)
Definition py_str (v : value) : result string :=
  match v with
  | VNone => Ok "None"
  | VBool b => Ok (str_bool b)
  | VInt z => Ok (str_int z)
  | VStr s => Ok s
  | VRef _ => Raise Unsupported
  end.

(** [int(v)]. *)
Definition py_int (v : value) : result Z :=
  match v with
  | VNone => Raise TypeError
  | VBool b => Ok (if b then 1 else 0)
  | VInt z => Ok z
  | VStr _ => Raise Unsupported
  | VRef _ => Raise TypeError
  end.

(** [bool(v)]. *)
Definition py_bool (v : value) : result bool :=
  match v with
  | VNone => Ok false
  | VBool b => Ok b
  | VInt z => Ok (negb (z =? 0))
  | VStr s => Ok (negb (String.eqb s ""))
  | VRef _ => Raise Unsupported
  end.

(** [v == s] for a string literal [s]. *)
Definition eq_str (v : value) (s : string) : bool :=
  match v with
  | VStr t => String.eqb t s
  | _ => false
  end.

(** [k in s] on strings is the substring test. *)
Fixpoint is_substring (k s : string) : bool :=
  String.prefix k s ||
  match s with
  | EmptyString => false
  | String _ s' => is_substring k s'
  end.

(** [v[k]] for [v] any value and [k] a string: only dictionaries can be
    subscripted by a string. *)
Definition subscript (h : heap) (v : value) (k : string) : result value :=
  match v with
  | VRef l => d ← deref h l; dict_item d k
  | _ => Raise TypeError
  end.

(** [k in v] for [k] a string. *)
Definition contains (h : heap) (v : value) (k : string) : result bool :=
  match v with
  | VRef l => d ← deref h l; Ok (bool_decide (is_Some (d !! k)))
  | VStr s => Ok (is_substring k s)
  | _ => Raise TypeError
  end.

(** ** Floats

    [sizeString] converts the size to a float, compares it with powers of
    two, divides by a power of two and truncates.  The float of an integer is
    again an integer (the nearest one with 53 significant bits, ties to
    even), comparison is exact, and dividing a double of magnitude at least
    1 by 2^10, 2^20 or 2^30 is exact.  So the floats of [sizeString] are
    modelled by the rational they denote: an integer, and a quotient that is
    only ever truncated. *)

(** The integer nearest to [n] that has at most 53 significant bits, for
    [0 <= n]. *)
Definition round53 (n : Z) : Z :=
  if n <? 2 ^ 53 then n
  else
    let k := Z.log2 n - 52 in
    let q := Z.shiftr n k in
    let r := Z.land n (Z.ones k) in
    let half := 2 ^ (k - 1) in
    let q' := if (half <? r) || ((r =? half) && Z.odd q) then q + 1 else q in
    Z.shiftl q' k.

(** [float(n)] for an integer: [OverflowError] beyond the range of a
    double. *)
Definition float_of_int (n : Z) : result Z :=
  let m := round53 (Z.abs n) in
  if 2 ^ 1024 <=? m then Raise OverflowError
  else Ok (Z.sgn n * m).

(** [float(v)], as an integer-valued double. *)
Definition py_float (v : value) : result Z :=
  match v with
  | VNone => Raise TypeError
  | VBool b => Ok (if b then 1 else 0)
  | VInt z => float_of_int z
  | VStr _ => Raise Unsupported
  | VRef _ => Raise TypeError
  end.

(** ** Property keys *)

Definition PROP_KEY_SLUG := "snapshot_slug".
Definition PROP_KEY_DATE := "snapshot_date".
Definition PROP_KEY_NAME := "snapshot_name".
Definition PROP_TYPE := "type".
Definition PROP_VERSION := "version".
Definition PROP_PROTECTED := "protected".
Definition PROP_RETAINED := "retained".

(** ** class DriveSnapshot

    A snapshot stored on Google Drive.  The object keeps a reference to its
    own top-level dictionary, [source.copy()]: a shallow copy, whose
    ['appProperties'] entry still refers to the dictionary the caller's
    record refers to.

    [parseDateTime] comes from [backup/helpers.py] and the type of its
    results from Python's [datetime]; the class is parametric in both. *)
Module DriveSnapshot.
Section defs.
Context {datetime : Type}.
Variable parseDateTime : value -> result datetime.

Record t := mk { source : loc; _date : datetime }.

(** [self.source.get('appProperties')] *)
Definition appProperties (h : heap) (self : t) : result value :=
  src ← deref h (source self);
  Ok (dict_get src "appProperties").

Definition __init__ (source : loc) (h : heap) : result (t * heap) :=
  '(l, h') ← dict_copy h source;
  src ← deref h' l;
  text ← subscript h' (dict_get src "appProperties") PROP_KEY_DATE;
  date ← parseDateTime text;
  Ok (mk l date, h').

Definition name (h : heap) (self : t) : result value :=
  props ← appProperties h self;
  subscript h props PROP_KEY_NAME.

Definition slug (h : heap) (self : t) : result value :=
  props ← appProperties h self;
  subscript h props PROP_KEY_SLUG.

Definition size (h : heap) (self : t) : result value :=
  src ← deref h (source self);
  Ok (dict_get src "size").

Definition date (self : t) : datetime := _date self.

Definition snapshotType (h : heap) (self : t) : result value :=
  props ← appProperties h self;
  b ← contains h props PROP_TYPE;
  if b : bool then subscript h props PROP_TYPE else Ok (VStr "full").

Definition version (h : heap) (self : t) : result value :=
  props ← appProperties h self;
  b ← contains h props PROP_VERSION;
  if b : bool then subscript h props PROP_VERSION else Ok (VStr "?").

(** [props[k] == "true" or props[k] == "True"] *)
Definition flag (h : heap) (props : value) (k : string) : result bool :=
  x ← subscript h props k;
  if eq_str x "true" then Ok true
  else y ← subscript h props k; Ok (eq_str y "True").

Definition protected (h : heap) (self : t) : result bool :=
  props ← appProperties h self;
  b ← contains h props PROP_PROTECTED;
  if b : bool then flag h props PROP_PROTECTED else Ok false.

Definition retained (h : heap) (self : t) : result bool :=
  props ← appProperties h self;
  b ← contains h props PROP_RETAINED;
  if b : bool then flag h props PROP_RETAINED else Ok false.

(** [v[k] = x]: only a dictionary supports item assignment. *)
Definition store_item (h : heap) (v : value) (k : string) (x : value)
  : result heap :=
  match v with
  | VRef l => d ← deref h l; Ok (<[l := <[k := x]> d]> h)
  | _ => Raise TypeError
  end.

(** The right-hand side [str(retain)] is evaluated first. *)
Definition setRetain (retain : value) (self : t) (h : heap) : result heap :=
  s ← py_str retain;
  props ← appProperties h self;
  store_item h props PROP_RETAINED (VStr s).
End defs.
Arguments t : clear implicits.
End DriveSnapshot.

(** ** class HASnapshot

  A snapshot stored in Home Assistant.  Nothing in the module writes to
  [self.source] after the copy is taken, so the object holds the copied
  dictionary itself. *)
Module HASnapshot.
Section defs.
Context {datetime : Type}.
Variable parseDateTime : value -> result datetime.

Record t := mk { source : dict; _retained : bool; _date : datetime }.

Definition __init__ (source : loc) (retained : bool) (h : heap) : result t :=
  d ← deref h source;
  text ← dict_item d "date";
  date ← parseDateTime text;
  Ok (mk d retained date).

Definition name (self : t) : result string :=
  dict_item (source self) "name" ≫= py_str.

Definition slug (self : t) : result string :=
  dict_item (source self) "slug" ≫= py_str.

Definition size (self : t) : result Z :=
  n ← dict_item (source self) "size" ≫= py_int;
  Ok (n * 1024 * 1024).

Definition date (self : t) : datetime := _date self.

Definition snapshotType (self : t) : result string :=
  dict_item (source self) "type" ≫= py_str.

Definition version (self : t) : result string :=
  dict_item (source self) "homeassistant" ≫= py_str.

Definition protected (self : t) : result bool :=
  dict_item (source self) "protected" ≫= py_bool.

Definition retained (self : t) : bool := _retained self.
End defs.
Arguments t : clear implicits.
End HASnapshot.

(** ** The two kinds of record a [Snapshot] is built from or updated with *)
Inductive AbstractSnapshot (datetime : Type) :=
  | IsHA (snapshot : HASnapshot.t datetime)
  | IsDrive (snapshot : DriveSnapshot.t datetime).
Arguments IsHA {datetime} snapshot.
Arguments IsDrive {datetime} snapshot.

(** ** class Snapshot

    The aggregate: an optional Drive record, an optional Home Assistant
    record and the transient state.  Besides the attributes that [__init__]
    creates, two attributes come into being by assignment in a method:
    [drive], which [update] writes, and the instance attribute
    [downloadFailed], which [setDownloading] writes and which from then on
    hides the method of the same name ([downloadFailed_attr] below, [None]
    while the attribute does not exist). *)
Module Snapshot.
Section defs.
Context {datetime : Type}.

Record t := mk {
    driveitem : option (DriveSnapshot.t datetime);
    pending : bool;
    ha : option (HASnapshot.t datetime);
    donwloading : Z;
    donwload_failed : bool;
    pending_name : option string;
    pending_date : option datetime;
    pending_slug : option string;
    uploading_pct : Z;
    pendingHasFailed : bool;
    will_backup : bool;
    restoring : option bool;
    _deleteNextFromDrive : option bool;
    _deleteNextFromHa : option bool;
    _pending_retain_drive : bool;
    _pending_retain_ha : bool;
    drive : option (DriveSnapshot.t datetime);
    downloadFailed_attr : option bool
  }.

(** Attribute assignment, [self.f = v], one per attribute. *)
Definition set_driveitem (v : option (DriveSnapshot.t datetime)) (self : t) : t :=
  let '(mk _ x1 x2 x3 x4 x5 x6 x7 x8 x9 x10 x11 x12 x13 x14 x15 x16 x17) := self in
    mk v x1 x2 x3 x4 x5 x6 x7 x8 x9 x10 x11 x12 x13 x14 x15 x16 x17.
Definition set_pending (v : bool) (self : t) : t :=
  let '(mk x0 _ x2 x3 x4 x5 x6 x7 x8 x9 x10 x11 x12 x13 x14 x15 x16 x17) := self in
  mk x0 v x2 x3 x4 x5 x6 x7 x8 x9 x10 x11 x12 x13 x14 x15 x16 x17.
Definition set_ha (v : option (HASnapshot.t datetime)) (self : t) : t :=
  let '(mk x0 x1 _ x3 x4 x5 x6 x7 x8 x9 x10 x11 x12 x13 x14 x15 x16 x17) := self in
  mk x0 x1 v x3 x4 x5 x6 x7 x8 x9 x10 x11 x12 x13 x14 x15 x16 x17.
Definition set_donwloading (v : Z) (self : t) : t :=
  let '(mk x0 x1 x2 _ x4 x5 x6 x7 x8 x9 x10 x11 x12 x13 x14 x15 x16 x17) := self in
  mk x0 x1 x2 v x4 x5 x6 x7 x8 x9 x10 x11 x12 x13 x14 x15 x16 x17.
Definition set_donwload_failed (v : bool) (self : t) : t :=
  let '(mk x0 x1 x2 x3 _ x5 x6 x7 x8 x9 x10 x11 x12 x13 x14 x15 x16 x17) := self in
  mk x0 x1 x2 x3 v x5 x6 x7 x8 x9 x10 x11 x12 x13 x14 x15 x16 x17.
Definition set_pending_name (v : option string) (self : t) : t :=
  let '(mk x0 x1 x2 x3 x4 _ x6 x7 x8 x9 x10 x11 x12 x13 x14 x15 x16 x17) := self in
  mk x0 x1 x2 x3 x4 v x6 x7 x8 x9 x10 x11 x12 x13 x14 x15 x16 x17.
Definition set_pending_date (v : option datetime) (self : t) : t :=
  let '(mk x0 x1 x2 x3 x4 x5 _ x7 x8 x9 x10 x11 x12 x13 x14 x15 x16 x17) := self in
  mk x0 x1 x2 x3 x4 x5 v x7 x8 x9 x10 x11 x12 x13 x14 x15 x16 x17.
Definition set_pending_slug (v : option string) (self : t) : t :=
  let '(mk x0 x1 x2 x3 x4 x5 x6 _ x8 x9 x10 x11 x12 x13 x14 x15 x16 x17) := self in
  mk x0 x1 x2 x3 x4 x5 x6 v x8 x9 x10 x11 x12 x13 x14 x15 x16 x17.
Definition set_uploading_pct (v : Z) (self : t) : t :=
  let '(mk x0 x1 x2 x3 x4 x5 x6 x7 _ x9 x10 x11 x12 x13 x14 x15 x16 x17) := self in
  mk x0 x1 x2 x3 x4 x5 x6 x7 v x9 x10 x11 x12 x13 x14 x15 x16 x17.
Definition set_pendingHasFailed (v : bool) (self : t) : t :=
  let '(mk x0 x1 x2 x3 x4 x5 x6 x7 x8 _ x10 x11 x12 x13 x14 x15 x16 x17) := self in
  mk x0 x1 x2 x3 x4 x5 x6 x7 x8 v x10 x11 x12 x13 x14 x15 x16 x17.
Definition set_will_backup (v : bool) (self : t) : t :=
  let '(mk x0 x1 x2 x3 x4 x5 x6 x7 x8 x9 _ x11 x12 x13 x14 x15 x16 x17) := self in
  mk x0 x1 x2 x3 x4 x5 x6 x7 x8 x9 v x11 x12 x13 x14 x15 x16 x17.
Definition set_restoring (v : option bool) (self : t) : t :=
  let '(mk x0 x1 x2 x3 x4 x5 x6 x7 x8 x9 x10 _ x12 x13 x14 x15 x16 x17) := self in
  mk x0 x1 x2 x3 x4 x5 x6 x7 x8 x9 x10 v x12 x13 x14 x15 x16 x17.
Definition set__deleteNextFromDrive (v : option bool) (self : t) : t :=
  let '(mk x0 x1 x2 x3 x4 x5 x6 x7 x8 x9 x10 x11 _ x13 x14 x15 x16 x17) := self in
  mk x0 x1 x2 x3 x4 x5 x6 x7 x8 x9 x10 x11 v x13 x14 x15 x16 x17.
Definition set__deleteNextFromHa (v : option bool) (self : t) : t :=
  let '(mk x0 x1 x2 x3 x4 x5 x6 x7 x8 x9 x10 x11 x12 _ x14 x15 x16 x17) := self in
  mk x0 x1 x2 x3 x4 x5 x6 x7 x8 x9 x10 x11 x12 v x14 x15 x16 x17.
Definition set__pending_retain_drive (v : bool) (self : t) : t :=
  let '(mk x0 x1 x2 x3 x4 x5 x6 x7 x8 x9 x10 x11 x12 x13 _ x15 x16 x17) := self in
  mk x0 x1 x2 x3 x4 x5 x6 x7 x8 x9 x10 x11 x12 x13 v x15 x16 x17.
Definition set__pending_retain_ha (v : bool) (self : t) : t :=
  let '(mk x0 x1 x2 x3 x4 x5 x6 x7 x8 x9 x10 x11 x12 x13 x14 _ x16 x17) := self in
  mk x0 x1 x2 x3 x4 x5 x6 x7 x8 x9 x10 x11 x12 x13 x14 v x16 x17.
Definition set_drive (v : option (DriveSnapshot.t datetime)) (self : t) : t :=
  let '(mk x0 x1 x2 x3 x4 x5 x6 x7 x8 x9 x10 x11 x12 x13 x14 x15 _ x17) := self in
  mk x0 x1 x2 x3 x4 x5 x6 x7 x8 x9 x10 x11 x12 x13 x14 x15 v x17.
Definition set_downloadFailed_attr (v : option bool) (self : t) : t :=
  let '(mk x0 x1 x2 x3 x4 x5 x6 x7 x8 x9 x10 x11 x12 x13 x14 x15 x16 _) := self in
  mk x0 x1 x2 x3 x4 x5 x6 x7 x8 x9 x10 x11 x12 x13 x14 x15 x16 v.

Definition __init__ (snapshot : option (AbstractSnapshot datetime)) : t :=
  {| driveitem := match snapshot with Some (IsDrive d) => Some d | _ => None end;
     pending := match snapshot with Some _ => false | None => true end;
     ha := match snapshot with Some (IsHA l) => Some l | _ => None end;
     donwloading := -1;
     donwload_failed := false;
     pending_name := Some "";
     pending_date := None;
     pending_slug := None;
     uploading_pct := -1;
     pendingHasFailed := false;
     will_backup := true;
     restoring := None;
     _deleteNextFromDrive := None;
     _deleteNextFromHa := None;
     _pending_retain_drive := false;
     _pending_retain_ha := false;
     drive := None;
     downloadFailed_attr := None |}.

Definition deleteNextFromDrive (self : t) : option bool :=
  _deleteNextFromDrive self.

Definition deleteNextFromDrive_setter (delete : option bool) (self : t) : t :=
  set__deleteNextFromDrive delete self.

Definition deleteNextFromHa (self : t) : option bool :=
  _deleteNextFromHa self.

Definition deleteNextFromHa_setter (delete : option bool) (self : t) : t :=
  set__deleteNextFromHa delete self.

Definition setPending (name : string) (date : datetime)
    (retain_drive retain_ha : bool) (self : t) : t :=
  let self := set_pending_name (Some name) self in
  let self := set_pending_date (Some date) self in
  let self := set_pending_slug (Some "PENDING") self in
  let self := set_pending true self in
  let self := set__pending_retain_drive retain_drive self in
  set__pending_retain_ha retain_ha self.

Definition endPending (slug : string) (self : t) : t :=
  set_pending_slug (Some slug) self.

Definition pendingFailed (self : t) : t :=
  set_pendingHasFailed true self.

Definition setWillBackup (will : bool) (self : t) : t :=
  set_will_backup will self.

Definition isInDrive (self : t) : bool :=
  match driveitem self with Some _ => true | None => false end.

Definition isInHA (self : t) : bool :=
  match ha self with Some _ => true | None => false end.

(** Truth value of an [Optional[str]]. *)
Definition nonempty (s : option string) : bool :=
  match s with
  | Some s => negb (String.eqb s "")
  | None => false
  end.

Definition name (h : heap) (self : t) : result value :=
  match driveitem self, ha self with
  | Some d, _ => DriveSnapshot.name h d
  | None, Some l => VStr <$> HASnapshot.name l
  | None, None =>
      if pending self && nonempty (pending_name self)
      then Ok (VStr (default "" (pending_name self)))
      else Ok (VStr "error")
  end.

Definition slug (h : heap) (self : t) : result value :=
  match driveitem self, ha self with
  | Some d, _ => DriveSnapshot.slug h d
  | None, Some l => VStr <$> HASnapshot.slug l
  | None, None =>
      if pending self && nonempty (pending_slug self)
      then Ok (VStr (default "" (pending_slug self)))
      else Ok (VStr "error")
  end.

Definition size (h : heap) (self : t) : result value :=
  match driveitem self, ha self with
  | Some d, _ => DriveSnapshot.size h d
  | None, Some l => VInt <$> HASnapshot.size l
  | None, None => Ok (VInt 0)
  end.

(** The Drive branch reads [self.driveItem], an attribute no [Snapshot]
    has. *)
Definition snapshotType (h : heap) (self : t) : result value :=
  match ha self, driveitem self with
  | Some l, _ => VStr <$> HASnapshot.snapshotType l
  | None, Some _ => Raise (AttributeError "driveItem")
  | None, None => Ok (VStr "pending")
  end.

(** Both branches call [snapshotType()] of the record. *)
Definition version (h : heap) (self : t) : result value :=
  match ha self, driveitem self with
  | Some l, _ => VStr <$> HASnapshot.snapshotType l
  | None, Some d => DriveSnapshot.snapshotType h d
  | None, None => Ok (VStr "?")
  end.

Definition protected (h : heap) (self : t) : result bool :=
  match ha self, driveitem self with
  | Some l, _ => HASnapshot.protected l
  | None, Some d => DriveSnapshot.protected h d
  | None, None => Ok false
  end.

(** [now] is what [datetime.now()] reads off the clock at the call. *)
Definition date (now : datetime) (self : t) : datetime :=
  match driveitem self, ha self with
  | Some d, _ => DriveSnapshot.date d
  | None, Some l => HASnapshot.date l
  | None, None =>
      match pending self, pending_date self with
      | true, Some d => d
      | _, _ => now
      end
  end.

Definition sizeString (h : heap) (self : t) : result string :=
  size_bytes ← size h self ≫= py_float;
  if size_bytes <=? 1024 then
    Ok (str_int size_bytes ++ " B")
  else if size_bytes <=? 1024 * 1024 then
    Ok (str_int (size_bytes ÷ 1024) ++ " kB")
  else if size_bytes <=? 1024 * 1024 * 1024 then
    Ok (str_int (size_bytes ÷ (1024 * 1024)) ++ " MB")
  else
    Ok (str_int (size_bytes ÷ (1024 * 1024 * 1024)) ++ " GB").

(** The second assignment creates the instance attribute [downloadFailed];
    [donwload_failed] is not written. *)
Definition setDownloading (percent : Z) (self : t) : t :=
  let self := set_donwloading percent self in
  set_downloadFailed_attr (Some false) self.

(** Calling [self.downloadFailed()] once the instance attribute exists calls
    a [bool]. *)
Definition downloadFailed (self : t) : result t :=
  match downloadFailed_attr self with
  | Some _ => Raise TypeError
  | None => Ok (set_donwload_failed true self)
  end.

Definition isDownloading (self : t) : bool := 0 <=? donwloading self.

Definition isRestoring (self : t) : bool :=
  match restoring self with Some _ => true | None => false end.

Definition status (self : t) : string :=
  if isRestoring self then
    if default false (restoring self) then "Restoring" else "Restore Complete"
  else if isDownloading self then
    if donwload_failed self then "Loading Failed!"
    else if donwloading self =? 100 then "Refreshing snapshot"
    else "Loading " ++ str_int (donwloading self) ++ "%"
  else if isInDrive self && isInHA self then "Backed Up"
  else if isInDrive self && negb (isInHA self) then "Drive Only"
  else if negb (isInDrive self) && isInHA self && (0 <=? uploading_pct self)
  then "Uploading " ++ str_int (uploading_pct self) ++ "%"
  else if negb (isInDrive self) && isInHA self then
    if will_backup self then "Waiting" else "Hass.io Only"
  else if pending self then "Pending"
  else "Invalid State".

Definition setDrive (drive : DriveSnapshot.t datetime) (self : t) : t :=
  let self := set_driveitem (Some drive) self in
  let self := set_pending_name None self in
  let self := set_pending_date None self in
  let self := set_pending_slug None self in
  let self := set_uploading_pct (-1) self in
  set_pending false self.

Definition setHA (ha : HASnapshot.t datetime) (self : t) : t :=
  let self := set_ha (Some ha) self in
  let self := set_pending_name None self in
  let self := set_pending_date None self in
  let self := set_pending_slug None self in
  let self := set_uploading_pct (-1) self in
  let self := set_pending false self in
  let self := set_donwloading (-1) self in
  set_donwload_failed false self.

Definition isPending (self : t) : bool :=
  pending self && negb (isInHA self) && negb (pendingHasFailed self).

Definition isDeleted (self : t) : bool :=
  negb (isPending self) && negb (isInHA self) && negb (isInDrive self).

(** The [else] branch assigns [self.drive], not [self.driveitem]. *)
Definition update (snapshot : AbstractSnapshot datetime) (self : t) : t :=
  match snapshot with
  | IsHA l => set_ha (Some l) self
  | IsDrive d => set_drive (Some d) self
  end.

Definition uploading (percent : Z) (self : t) : t :=
  set_uploading_pct percent self.

Definition driveRetained (h : heap) (self : t) : result bool :=
  match driveitem self with
  | None => Ok false
  | Some d =>
      r ← DriveSnapshot.retained h d;
      Ok (r || _pending_retain_drive self)
  end.

Definition haRetained (self : t) : bool :=
  match ha self with
  | None => false
  | Some l => HASnapshot.retained l || _pending_retain_ha self
  end.


(** The methods that write to the aggregate, as calls. *)
Inductive call :=
  | DeleteNextFromDrive (delete : option bool)
  | DeleteNextFromHa (delete : option bool)
  | SetPending (name : string) (date : datetime) (retain_drive retain_ha : bool)
  | EndPending (slug : string)
  | PendingFailed
  | SetWillBackup (will : bool)
  | SetDownloading (percent : Z)
  | DownloadFailed
  | SetDrive (drive : DriveSnapshot.t datetime)
  | SetHA (ha : HASnapshot.t datetime)
  | Update (snapshot : AbstractSnapshot datetime)
  | Uploading (percent : Z).

Definition exec (c : call) (self : t) : result t :=
  match c with
  | DeleteNextFromDrive delete => Ok (deleteNextFromDrive_setter delete self)
  | DeleteNextFromHa delete => Ok (deleteNextFromHa_setter delete self)
  | SetPending name date retain_drive retain_ha =>
      Ok (setPending name date retain_drive retain_ha self)
  | EndPending slug => Ok (endPending slug self)
  | PendingFailed => Ok (pendingFailed self)
  | SetWillBackup will => Ok (setWillBackup will self)
  | SetDownloading percent => Ok (setDownloading percent self)
  | DownloadFailed => downloadFailed self
  | SetDrive drive => Ok (setDrive drive self)
  | SetHA ha => Ok (setHA ha self)
  | Update snapshot => Ok (update snapshot self)
  | Uploading percent => Ok (uploading percent self)
  end.

(** A sequence of calls, stopping at the first that raises. *)
Fixpoint exec_all (cs : list call) (self : t) : result t :=
  match cs with
  | [] => Ok self
  | c :: cs => exec c self ≫= exec_all cs
  end.
End defs.
Arguments t : clear implicits.
Arguments call : clear implicits.
End Snapshot.

(** ** The status table as the specification words it

    Eleven rules in the specification's order, the first whose condition
    holds giving the label. *)
Section status_table.
Context {datetime : Type}.
Implicit Type self : Snapshot.t datetime.

Definition status_rules self : list (bool * string) :=
  let downloadProgress := Snapshot.donwloading self in
  let uploadProgress := Snapshot.uploading_pct self in
  let isDownloading := 0 <=? downloadProgress in
  let isInRemote := Snapshot.isInDrive self in
  let isInLocal := Snapshot.isInHA self in
  [ (bool_decide (Snapshot.restoring self = Some true), "Restoring");
    (bool_decide (Snapshot.restoring self = Some false), "Restore Complete");
    (isDownloading && Snapshot.donwload_failed self, "Loading Failed!");
    (isDownloading && (downloadProgress =? 100), "Refreshing snapshot");
    (isDownloading, "Loading " ++ str_int downloadProgress ++ "%");
    (isInRemote && isInLocal, "Backed Up");
    (isInRemote && negb isInLocal, "Drive Only");
    (negb isInRemote && isInLocal && (0 <=? uploadProgress),
      "Uploading " ++ str_int uploadProgress ++ "%");
    (negb isInRemote && isInLocal,
      if Snapshot.will_backup self then "Waiting" else "Hass.io Only");
    (Snapshot.pending self, "Pending") ].

Fixpoint first_match (rules : list (bool * string)) (otherwise : string)
  : string :=
  match rules with
  | [] => otherwise
  | (condition, label) :: rules =>
      if condition then label else first_match rules otherwise
  end.

Definition status_table self : string :=
  first_match (status_rules self) "Invalid State".
End status_table.

(** ** The sizes of the boundary table, with the labels the code gives *)

Definition sizeString_boundaries : list (Z * string) :=
  [ (1023, "1023 B");
    (1024, "1024 B");
    (1024 * 1024, "1024 kB");
    (1024 * 1024 * 1024 - 1, "1023 MB") ].

(** ** Concrete records

    A heap as a caller holds it: a Drive record at [1] whose
    ['appProperties'] is the dictionary at [2], and a Home Assistant record
    at [3]. *)
Module Example.

(** Modelled from the spec: [parseDateTime] of [backup/helpers.py], which the
    sources at hand do not include.  The specification says of it that the
    date text is parsed into the creation time, and that the records are
    not validated beyond the presence of their keys; this instance takes a
    timestamp to be its text and accepts every string.  It serves to run
    the classes on the concrete records below. *)
Definition parseDateTime (text : value) : result string :=
  match text with
  | VStr s => Ok s
  | _ => Raise TypeError
  end.

Definition now : string := "2019-06-01T12:00:00".

Definition drive_props : dict :=
  {[ PROP_KEY_SLUG := VStr "abc123";
     PROP_KEY_DATE := VStr "2019-01-01T00:00:00";
     PROP_KEY_NAME := VStr "Full Snapshot";
     PROP_TYPE := VStr "partial";
     PROP_VERSION := VStr "0.92.2" ]}.

Definition drive_record : dict :=
  {[ "id" := VStr "file1"; "size" := VInt 1024; "appProperties" := VRef 2%positive ]}.

Definition ha_record : dict :=
  {[ "name" := VStr "Full Snapshot";
     "slug" := VStr "abc123";
     "size" := VInt 1;
     "date" := VStr "2019-01-01T00:00:00";
     "type" := VStr "full";
     "homeassistant" := VStr "0.92.2";
     "protected" := VBool false ]}.

Definition h0 : heap :=
  {[ 1%positive := drive_record; 2%positive := drive_props;
     3%positive := ha_record ]}.

(** [DriveSnapshot(r)] for the record at [1]: the copy goes to [4]. *)
Definition drive_snapshot : DriveSnapshot.t string :=
  DriveSnapshot.mk 4%positive "2019-01-01T00:00:00".

Definition h1 : heap := <[4%positive := drive_record]> h0.

(** [HASnapshot(l)] for the record at [3]. *)
Definition ha_snapshot : HASnapshot.t string :=
  HASnapshot.mk ha_record false "2019-01-01T00:00:00".

(** A second [DriveSnapshot(r)] for the same record at [1], constructed
    after the first: its copy goes to [5]. *)
Definition drive_snapshot2 : DriveSnapshot.t string :=
  DriveSnapshot.mk 5%positive "2019-01-01T00:00:00".

Definition h2 : heap := <[5%positive := drive_record]> h1.

(** The heap [h1] with the size entry of the snapshot's dictionary at [4]
    set to [n]. *)
Definition h_sized (n : Z) : heap :=
  <[4%positive := <["size" := VInt n]> drive_record]> h1.

(** The heap [h2] after [setRetain(True)] on either snapshot. *)
Definition h_retained : heap :=
  <[2%positive := <[PROP_RETAINED := VStr "True"]> drive_props]> h2.

(** A Drive record that has a date and neither slug nor name, at [2], under
    the top-level record at [1]. *)
Definition h_date_only : heap :=
  {[ 1%positive := drive_record;
     2%positive := {[ PROP_KEY_DATE := VStr "2019-01-01T00:00:00" ]} ]}.

End Example.

(** * Properties *)

Section claims.
Context {datetime : Type}.
Implicit Type self : Snapshot.t datetime.
Implicit Type h : heap.

(** ** Status and presence *)

Ltac crush_status :=
  repeat match goal with
  | |- context [bool_decide ?P] => destruct (bool_decide_reflect P)
  | |- context [if ?b then _ else _] => destruct b eqn:?
  | _ => progress simplify_eq/=
  end.

(** C1: [status()] follows the decision table in the order the
    specification gives: restoring first, then the three download rules,
    then the presence rules, then pending, else "Invalid State".  In
    particular an aggregate that has both records, is not restoring, has no
    download failure and is at download progress 50 reports "Loading 50%"
    and not "Backed Up". *)
Theorem status_priority self :
  Snapshot.status self = status_table self /\
  (is_Some (Snapshot.driveitem self) ->
   is_Some (Snapshot.ha self) ->
   Snapshot.donwloading self = 50 ->
   Snapshot.restoring self = None ->
   Snapshot.donwload_failed self = false ->
   Snapshot.status self = "Loading 50%").
Proof.
  split.
  - destruct self as [d p l dl df pn pd ps up pf wb r dd dh rd rh dr da].
    unfold Snapshot.status, status_table, status_rules, Snapshot.isRestoring,
      Snapshot.isDownloading, Snapshot.isInDrive, Snapshot.isInHA.
    cbn [Snapshot.restoring Snapshot.donwloading Snapshot.donwload_failed
         Snapshot.driveitem Snapshot.ha Snapshot.uploading_pct
         Snapshot.will_backup Snapshot.pending first_match].
    destruct r as [[]|]; cbn [default first_match]; [by crush_status..|].
    rewrite 2!bool_decide_eq_false_2 by done.
    destruct (0 <=? dl); cbn [andb].
    { destruct df; [done|]. by destruct (dl =? 100). }
    by destruct d, l; cbn [andb negb].
  - intros [d Hd] [l Hl] Hp Hr Hf.
    unfold Snapshot.status, Snapshot.isRestoring, Snapshot.isDownloading.
    by rewrite Hr, Hp, Hf.
Qed.

(** C2: [isPending()] holds exactly when the pending flag is set, no local
    record is attached and the pending-failed flag is not set; [isDeleted()]
    holds exactly when [isPending()] is false and neither record is
    attached, which is to say: no remote record, no local record, and
    either not pending or pending-failed. *)
Theorem isPending_isDeleted_iff self :
  (Snapshot.isPending self = true <->
     Snapshot.pending self = true /\ Snapshot.ha self = None /\
     Snapshot.pendingHasFailed self = false) /\
  (Snapshot.isDeleted self = true <->
     Snapshot.isPending self = false /\ Snapshot.ha self = None /\
     Snapshot.driveitem self = None) /\
  (Snapshot.isDeleted self = true <->
     Snapshot.driveitem self = None /\ Snapshot.ha self = None /\
     (Snapshot.pending self = false \/ Snapshot.pendingHasFailed self = true)).
Proof.
  unfold Snapshot.isDeleted, Snapshot.isPending, Snapshot.isInHA,
    Snapshot.isInDrive.
  destruct (Snapshot.pending self), (Snapshot.ha self),
    (Snapshot.driveitem self), (Snapshot.pendingHasFailed self);
    cbn; intuition congruence.
Qed.
(** ** Sizes *)

(** Below 2^53 the float of an integer is the integer. *)
Lemma float_of_int_exact n :
  Z.abs n < 2 ^ 53 -> float_of_int n = Ok n.
Proof.
  intros Hn. unfold float_of_int, round53.
  destruct (Z.ltb_spec (Z.abs n) (2 ^ 53)); [|lia].
  destruct (Z.leb_spec (2 ^ 1024) (Z.abs n)).
  - assert (2 ^ 53 < 2 ^ 1024) by (by apply Z.pow_lt_mono_r). lia.
  - f_equal. lia.
Qed.

(** C3, amended: the comparisons of [sizeString()] are inclusive, so a size
    stays in the lower unit at the boundary: 1023 bytes give "1023 B", 1024
    bytes give "1024 B", 1024*1024 bytes give "1024 kB" and
    1024*1024*1024 - 1 bytes give "1023 MB" (truncating division). *)
Theorem sizeString_boundary_table h self n label :
  Snapshot.size h self = Ok (VInt n) ->
  In (n, label) sizeString_boundaries ->
  Snapshot.sizeString h self = Ok label.
Proof.
  intros Hsize Hin. unfold Snapshot.sizeString. rewrite Hsize.
  repeat (destruct Hin as [[= <- <-]|Hin]; [by vm_compute|]).
  destruct Hin.
Qed.

(** C9: [update(l)] with a local record [l], called a second time with the
    same record, changes nothing: every derived accessor returns what it
    returned after the first call. *)
Theorem update_local_idempotent self (l : HASnapshot.t datetime) h now :
  let once := Snapshot.update (IsHA l) self in
  let twice := Snapshot.update (IsHA l) once in
  Snapshot.name h twice = Snapshot.name h once /\
  Snapshot.slug h twice = Snapshot.slug h once /\
  Snapshot.size h twice = Snapshot.size h once /\
  Snapshot.date now twice = Snapshot.date now once /\
  Snapshot.snapshotType h twice = Snapshot.snapshotType h once /\
  Snapshot.version h twice = Snapshot.version h once /\
  Snapshot.protected h twice = Snapshot.protected h once /\
  Snapshot.status twice = Snapshot.status once /\
  Snapshot.sizeString h twice = Snapshot.sizeString h once /\
  Snapshot.isPending twice = Snapshot.isPending once /\
  Snapshot.isDeleted twice = Snapshot.isDeleted once.
Proof.
  intros once twice.
  assert (twice = once) as -> by (subst once twice; by destruct self).
  repeat split.
Qed.

(** ** The download-failure flag *)

Lemma exec_keeps_donwload_failed (c : Snapshot.call datetime) self self' :
  (forall l, c <> Snapshot.SetHA l) ->
  Snapshot.exec c self = Ok self' ->
  Snapshot.donwload_failed self' = Snapshot.donwload_failed self \/
  Snapshot.donwload_failed self' = true.
Proof.
  intros Hc Hexec.
  destruct c; cbn in Hexec;
    try (injection Hexec as <-; left; by destruct self).
  - unfold Snapshot.downloadFailed in Hexec.
    destruct (Snapshot.downloadFailed_attr self); [done|].
    injection Hexec as <-. right. by destruct self.
  - by edestruct Hc.
  - injection Hexec as <-. left. by destruct self, snapshot.
Qed.

Lemma exec_all_keeps_donwload_failed (cs : list (Snapshot.call datetime))
    self self' :
  (forall l, ~ In (Snapshot.SetHA l) cs) ->
  Snapshot.donwload_failed self = true ->
  Snapshot.exec_all cs self = Ok self' ->
  Snapshot.donwload_failed self' = true.
Proof.
  revert self. induction cs as [|c cs IH]; intros self Hcs Hflag Hexec.
  - by injection Hexec as <-.
  - cbn in Hexec. destruct (Snapshot.exec c self) as [mid|] eqn:Hc; [|done].
    apply (IH mid); [| |done].
    + intros l Hin. eapply Hcs. right. exact Hin.
    + destruct (exec_keeps_donwload_failed c self mid) as [->| ->]; try done.
      intros l ->. eapply Hcs. left. reflexivity.
Qed.

(** C10: [setDownloading(p)] does not clear the download-failure flag.  On
    an aggregate whose flag the [downloadFailed()] mutator has set, the flag
    is still set after [setDownloading(p)], so with [p >= 0] and no restore
    under way [status()] is "Loading Failed!"; the flag survives every
    sequence of mutator calls that has no [setHA] in it, and [setHA] clears
    it. *)
Theorem setDownloading_keeps_failure self0 self :
  Snapshot.downloadFailed self0 = Ok self ->
  Snapshot.donwload_failed self = true /\
  (forall p, Snapshot.donwload_failed (Snapshot.setDownloading p self) = true) /\
  (forall p, 0 <= p -> Snapshot.restoring self = None ->
     Snapshot.status (Snapshot.setDownloading p self) = "Loading Failed!") /\
  (forall cs self',
     (forall l, ~ In (Snapshot.SetHA l) cs) ->
     Snapshot.exec_all cs self = Ok self' ->
     Snapshot.donwload_failed self' = true) /\
  (forall l, Snapshot.donwload_failed (Snapshot.setHA l self) = false).
Proof.
  unfold Snapshot.downloadFailed.
  destruct (Snapshot.downloadFailed_attr self0); [done|].
  intros [= <-].
  assert (Snapshot.donwload_failed (Snapshot.set_donwload_failed true self0)
          = true) as Hflag by by destruct self0.
  split_and!.
  - done.
  - intros p. by destruct self0.
  - intros p Hp Hr.
    destruct self0 as [d pe l dl df pn pd ps up pf wb r dd dh rd rh dr da].
    cbn in Hr. subst r.
    unfold Snapshot.status, Snapshot.isRestoring, Snapshot.isDownloading.
    cbn. by destruct (Z.leb_spec 0 p); [|lia].
  - intros cs self' Hcs. by apply exec_all_keeps_donwload_failed.
  - intros l. by destruct self0.
Qed.
(** ** Retention of a pending snapshot *)

(** C7, amended: on an aggregate that has no local record, no remote record
    and whose pending-failed flag is not set, after
    [setPending(name, date, true, false)] [isPending()] is true and
    [driveRetained()] is false; after a subsequent [setDrive(r)] with
    [r.retained()] false, [driveRetained()] is true: the sequence
    [setPending], [setDrive] keeps the retention intent. *)
Theorem pending_retain_intent self name date h :
  Snapshot.ha self = None ->
  Snapshot.driveitem self = None ->
  Snapshot.pendingHasFailed self = false ->
  let pended := Snapshot.setPending name date true false self in
  Snapshot.isPending pended = true /\
  Snapshot.driveRetained h pended = Ok false /\
  (forall r, DriveSnapshot.retained h r = Ok false ->
     Snapshot.driveRetained h (Snapshot.setDrive r pended) = Ok true).
Proof.
  destruct self as [d p l dl df pn pd ps up pf wb r dd dh rd rh dr da].
  cbn. intros -> -> ->. split_and!; [done..|].
  intros r' Hr. unfold Snapshot.driveRetained. cbn. by rewrite Hr.
Qed.

(** ** Construction of a Drive snapshot *)

Section copy.
Variable parseDateTime : value -> result datetime.
Variables (h : heap) (source : loc) (d props : dict) (lp : loc).
Variables (l : loc) (h' : heap).
Hypothesis Hsource : h !! source = Some d.
Hypothesis Happ : d !! "appProperties" = Some (VRef lp).
Hypothesis Hprops : h !! lp = Some props.
Hypothesis Hcopy : dict_copy h source = Ok (l, h').

Lemma copy_is_fresh : h !! l = None /\ h' = <[l := d]> h.
Proof using Hsource Hcopy.
  unfold dict_copy, deref in Hcopy. rewrite Hsource in Hcopy.
  injection Hcopy as <- <-. split; [|done].
  apply not_elem_of_dom, is_fresh.
Qed.

Lemma copy_keeps_props : h' !! lp = Some props.
Proof using Hsource Hprops Hcopy.
  destruct copy_is_fresh as [Hl ->].
  rewrite lookup_insert_ne; [done|]. intros E. rewrite E in Hl. congruence.
Qed.

Lemma copy_appProperties (date : datetime) :
  DriveSnapshot.appProperties h' (DriveSnapshot.mk l date) = Ok (VRef lp).
Proof using Hsource Happ Hcopy.
  destruct copy_is_fresh as [_ ->].
  unfold DriveSnapshot.appProperties, deref. cbn.
  rewrite lookup_insert_eq. cbn. unfold dict_get. by rewrite Happ.
Qed.

Lemma copy_subscript k :
  subscript h' (VRef lp) k = dict_item props k.
Proof using Hsource Hprops Hcopy.
  unfold subscript, deref. by rewrite copy_keeps_props.
Qed.

(** The constructor reads one key, the date. *)
Lemma init_unfold :
  DriveSnapshot.__init__ parseDateTime source h =
    (text ← dict_item props PROP_KEY_DATE;
     date ← parseDateTime text;
     Ok (DriveSnapshot.mk l date, h')).
Proof using Hsource Happ Hprops Hcopy.
  unfold DriveSnapshot.__init__. rewrite Hcopy. cbn [mbind result_bind].
  destruct copy_is_fresh as [_ E]. unfold deref. rewrite E at 1.
  rewrite lookup_insert_eq. cbn [mbind result_bind].
  unfold dict_get. rewrite Happ. cbn [default from_option id].
  by rewrite copy_subscript.
Qed.

(** [setRetain] writes to the dictionary that the caller's record refers to
    as its ['appProperties']. *)
Lemma setRetain_writes_shared_appProperties (date : datetime) (b : bool) :
  DriveSnapshot.setRetain (VBool b) (DriveSnapshot.mk l date) h'
  = Ok (<[lp := <[PROP_RETAINED := VStr (str_bool b)]> props]> h').
Proof using Hsource Happ Hprops Hcopy.
  unfold DriveSnapshot.setRetain. cbn [py_str mbind result_bind].
  rewrite copy_appProperties. cbn [mbind result_bind].
  unfold DriveSnapshot.store_item, deref. by rewrite copy_keeps_props.
Qed.

(** After [setRetain(b)] the snapshot's [retained()] is [b]. *)
Lemma retained_after_setRetain (date : datetime) (b : bool) :
  DriveSnapshot.retained
    (<[lp := <[PROP_RETAINED := VStr (str_bool b)]> props]> h')
    (DriveSnapshot.mk l date)
  = Ok b.
Proof using Hsource Happ Hprops Hcopy.
  destruct copy_is_fresh as [Hl E].
  assert (l <> lp) as Hne by (intros ->; congruence).
  unfold DriveSnapshot.retained, DriveSnapshot.appProperties, deref.
  cbn [DriveSnapshot.source]. rewrite lookup_insert_ne by done.
  rewrite E, lookup_insert_eq. cbn [mbind result_bind].
  unfold dict_get. rewrite Happ. cbn [default from_option id].
  unfold contains, DriveSnapshot.flag, subscript, deref, dict_item.
  rewrite !lookup_insert_eq. cbn [mbind result_bind].
  rewrite !lookup_insert_eq, bool_decide_eq_true_2 by eauto.
  by destruct b.
Qed.
End copy.

Lemma dict_copy_ok h source (d : dict) :
  h !! source = Some d ->
  dict_copy h source = Ok (fresh (dom h), <[fresh (dom h) := d]> h).
Proof. intros Hd. unfold dict_copy, deref. by rewrite Hd. Qed.

(** Without an ['appProperties'] entry the constructor subscripts [None]. *)
Lemma init_without_appProperties (parseDateTime : value -> result datetime)
    h source (d : dict) :
  h !! source = Some d ->
  d !! "appProperties" = None ->
  DriveSnapshot.__init__ parseDateTime source h = Raise TypeError.
Proof.
  intros Hsource Happ. unfold DriveSnapshot.__init__.
  rewrite (dict_copy_ok _ _ _ Hsource). cbn [mbind result_bind].
  unfold deref. rewrite lookup_insert_eq. cbn [mbind result_bind].
  unfold dict_get. by rewrite Happ.
Qed.

(** C8, amended: the constructor of a Drive snapshot looks up the date key
    only.  A record whose [appProperties] lacks the date fails at
    construction with a [KeyError] that names the key; a record that has a
    date which parses is constructed, whether or not it has a slug and a
    name, and a missing name or slug raises its [KeyError] when [name()] or
    [slug()] is called. *)
Theorem init_checks_date_only (parseDateTime : value -> result datetime)
    h source (d props : dict) (lp : loc) :
  h !! source = Some d ->
  d !! "appProperties" = Some (VRef lp) ->
  h !! lp = Some props ->
  (props !! PROP_KEY_DATE = None ->
     DriveSnapshot.__init__ parseDateTime source h
     = Raise (KeyError PROP_KEY_DATE)) /\
  (forall text date,
     props !! PROP_KEY_DATE = Some text ->
     parseDateTime text = Ok date ->
     exists (self : DriveSnapshot.t datetime) (h2 : heap),
       DriveSnapshot.__init__ parseDateTime source h = Ok (self, h2) /\
       (props !! PROP_KEY_NAME = None ->
          DriveSnapshot.name h2 self = Raise (KeyError PROP_KEY_NAME)) /\
       (props !! PROP_KEY_SLUG = None ->
          DriveSnapshot.slug h2 self = Raise (KeyError PROP_KEY_SLUG))).
Proof.
  intros Hsource Happ Hprops.
  pose proof (dict_copy_ok h source d Hsource) as Hcopy.
  rewrite (init_unfold _ _ _ _ _ _ _ _ Hsource Happ Hprops Hcopy).
  unfold dict_item. split.
  - by intros ->.
  - intros text date -> Hdate. cbn. rewrite Hdate. cbn.
    eexists _, _. split; [done|].
    unfold DriveSnapshot.name, DriveSnapshot.slug.
    rewrite (copy_appProperties _ _ _ _ _ _ Hsource Happ Hcopy).
    cbn -[subscript].
    rewrite !(copy_subscript _ _ _ _ _ _ _ Hsource Hprops Hcopy).
    unfold dict_item. split; by intros ->.
Qed.


(** ** The accessors and [update] on a Drive record *)

Lemma snapshotType_remote_only h (d : DriveSnapshot.t datetime) :
  Snapshot.snapshotType h (Snapshot.__init__ (Some (IsDrive d)))
  = Raise (AttributeError "driveItem").
Proof. reflexivity. Qed.

Lemma version_is_snapshotType h (d : DriveSnapshot.t datetime)
    (l : HASnapshot.t datetime) :
  Snapshot.version h (Snapshot.__init__ (Some (IsDrive d)))
  = DriveSnapshot.snapshotType h d /\
  Snapshot.version h (Snapshot.__init__ (Some (IsHA l)))
  = VStr <$> HASnapshot.snapshotType l.
Proof. split; reflexivity. Qed.

Lemma update_drive_keeps_driveitem self (d : DriveSnapshot.t datetime) :
  Snapshot.driveitem (Snapshot.update (IsDrive d) self)
  = Snapshot.driveitem self /\
  Snapshot.drive (Snapshot.update (IsDrive d) self) = Some d.
Proof. by destruct self. Qed.
End claims.

(** * The properties on the concrete records *)

Lemma status_priority_witness :
  let self :=
    Snapshot.setDownloading 50
      (Snapshot.setHA Example.ha_snapshot
         (Snapshot.__init__ (Some (IsDrive Example.drive_snapshot)))) in
  Snapshot.isInDrive self = true /\ Snapshot.isInHA self = true /\
  Snapshot.status self = "Loading 50%".
Proof.
  intros self. split_and!; [reflexivity..|].
  apply (proj2 (status_priority self)); by eauto.
Defined.

(** C3 as stated fails: 1024 bytes are reported as "1024 B", not "1 kB",
    and 1024*1024 bytes as "1024 kB", not "1 MB". *)
Lemma sizeString_1024_counterexample :
  let remote := Snapshot.__init__ (Some (IsDrive Example.drive_snapshot)) in
  let local := Snapshot.__init__ (Some (IsHA Example.ha_snapshot)) in
  Snapshot.size Example.h1 remote = Ok (VInt 1024) /\
  Snapshot.sizeString Example.h1 remote = Ok "1024 B" /\
  Snapshot.sizeString Example.h1 remote <> Ok "1 kB" /\
  Snapshot.size Example.h1 local = Ok (VInt (1024 * 1024)) /\
  Snapshot.sizeString Example.h1 local = Ok "1024 kB" /\
  Snapshot.sizeString Example.h1 local <> Ok "1 MB".
Proof. by vm_compute. Qed.

Lemma sizeString_boundary_table_witness :
  let self := Snapshot.__init__ (Some (IsDrive Example.drive_snapshot)) in
  Snapshot.size Example.h1 self = Ok (VInt 1024) /\
  Snapshot.sizeString Example.h1 self = Ok "1024 B".
Proof.
  intros self. split; [reflexivity|].
  apply (sizeString_boundary_table Example.h1 self 1024 "1024 B");
    [reflexivity | right; left; reflexivity].
Defined.

(** C4 on a remote-only aggregate whose record has type "partial" and
    version "0.92.2": [snapshotType()] raises, and [version()] returns the
    type; on a local-only aggregate of type "full" and version "0.92.2"
    [version()] returns the type too. *)
Theorem snapshotType_version_on_drive_record :
  let self := Snapshot.__init__ (Some (IsDrive Example.drive_snapshot)) in
  Snapshot.isInDrive self = true /\ Snapshot.isInHA self = false /\
  DriveSnapshot.snapshotType Example.h1 Example.drive_snapshot
  = Ok (VStr "partial") /\
  DriveSnapshot.version Example.h1 Example.drive_snapshot
  = Ok (VStr "0.92.2") /\
  Snapshot.snapshotType Example.h1 self = Raise (AttributeError "driveItem") /\
  Snapshot.version Example.h1 self = Ok (VStr "partial") /\
  HASnapshot.version Example.ha_snapshot = Ok "0.92.2" /\
  Snapshot.version Example.h1
    (Snapshot.__init__ (Some (IsHA Example.ha_snapshot))) = Ok (VStr "full").
Proof. by vm_compute. Qed.

(** C5 on an aggregate built from a local record: [update(r)] with a Drive
    record [r] leaves the remote slot empty and stores [r] in the
    attribute [drive]. *)
Theorem update_misroutes_drive_record :
  let before := Snapshot.__init__ (Some (IsHA Example.ha_snapshot)) in
  let after := Snapshot.update (IsDrive Example.drive_snapshot) before in
  Snapshot.driveitem after = None /\
  Snapshot.isInDrive after = false /\
  Snapshot.drive after = Some Example.drive_snapshot /\
  Snapshot.status after = "Waiting" /\
  Snapshot.driveRetained Example.h1 after = Ok false.
Proof. by vm_compute. Qed.

(** C6 on the record at [1]: after [DriveSnapshot(r).setRetain(True)] the
    snapshot is retained, the caller's top-level dictionary is as it was,
    and the caller's [r['appProperties']], which had no ['retained'] key,
    maps it to "True". *)
Theorem setRetain_reaches_caller_record :
  let r := 1%positive in
  let caller_retained (h : heap) :=
    d ← deref h r; subscript h (dict_get d "appProperties") PROP_RETAINED in
  DriveSnapshot.__init__ Example.parseDateTime r Example.h0
  = Ok (Example.drive_snapshot, Example.h1) /\
  exists h2 : heap,
    DriveSnapshot.setRetain (VBool true) Example.drive_snapshot Example.h1
    = Ok h2 /\
    DriveSnapshot.retained h2 Example.drive_snapshot = Ok true /\
    h2 !! r = Example.h0 !! r /\
    caller_retained Example.h0 = Raise (KeyError PROP_RETAINED) /\
    caller_retained h2 = Ok (VStr "True").
Proof.
  split; [by vm_compute|].
  exists (<[2%positive := <[PROP_RETAINED := VStr "True"]> Example.drive_props]>
            Example.h1).
  by vm_compute.
Qed.

(** C7 as stated fails: with a local record attached [isPending()] is false
    after [setPending], with a remote record attached [driveRetained()] is
    true after it, and so is [isPending()] false on an aggregate whose
    pending creation has failed. *)
Lemma pending_retain_intent_counterexample :
  let both :=
    Snapshot.setHA Example.ha_snapshot
      (Snapshot.__init__ (Some (IsDrive Example.drive_snapshot))) in
  let failed := Snapshot.pendingFailed (Snapshot.__init__ None) in
  let pend := Snapshot.setPending "n" Example.now true false in
  Snapshot.isPending (pend both) = false /\
  Snapshot.driveRetained Example.h1 (pend both) = Ok true /\
  Snapshot.isPending (pend failed) = false.
Proof. by vm_compute. Qed.

Lemma pending_retain_intent_witness :
  let pended :=
    Snapshot.setPending "n" Example.now true false (Snapshot.__init__ None) in
  DriveSnapshot.retained Example.h1 Example.drive_snapshot = Ok false /\
  Snapshot.isPending pended = true /\
  Snapshot.driveRetained Example.h1 pended = Ok false /\
  Snapshot.driveRetained Example.h1
    (Snapshot.setDrive Example.drive_snapshot pended) = Ok true.
Proof.
  intros pended.
  destruct (pending_retain_intent (Snapshot.__init__ None) "n" Example.now
              Example.h1 eq_refl eq_refl eq_refl) as (Hp & Hr & Hd).
  split_and!; [reflexivity | exact Hp | exact Hr | apply Hd; reflexivity].
Defined.

(** C8 as stated fails: a record whose [appProperties] has a date and
    neither slug nor name is constructed without error. *)
Lemma init_without_slug_counterexample :
  let props := Example.h_date_only !! 2%positive in
  props ≫= (.!! PROP_KEY_SLUG) = None /\
  props ≫= (.!! PROP_KEY_NAME) = None /\
  fst <$> DriveSnapshot.__init__ Example.parseDateTime 1%positive
            Example.h_date_only
  = Ok (DriveSnapshot.mk 3%positive "2019-01-01T00:00:00").
Proof. by vm_compute. Qed.

Lemma init_checks_date_only_witness :
  exists (self : DriveSnapshot.t string) (h2 : heap),
    DriveSnapshot.__init__ Example.parseDateTime 1%positive Example.h_date_only
    = Ok (self, h2) /\
    DriveSnapshot.name h2 self = Raise (KeyError PROP_KEY_NAME) /\
    DriveSnapshot.slug h2 self = Raise (KeyError PROP_KEY_SLUG).
Proof.
  destruct (init_checks_date_only Example.parseDateTime Example.h_date_only
              1%positive Example.drive_record
              {[ PROP_KEY_DATE := VStr "2019-01-01T00:00:00" ]} 2%positive
              eq_refl eq_refl eq_refl) as [_ Hinit].
  destruct (Hinit (VStr "2019-01-01T00:00:00") "2019-01-01T00:00:00"
              eq_refl eq_refl) as (self & h2 & Hok & Hname & Hslug).
  exists self, h2. split_and!; [exact Hok | by apply Hname | by apply Hslug].
Defined.

Lemma setDownloading_keeps_failure_witness :
  let self0 := Snapshot.__init__ (Some (IsDrive Example.drive_snapshot)) in
  exists self,
    Snapshot.downloadFailed self0 = Ok self /\
    Snapshot.donwload_failed (Snapshot.setDownloading 50 self) = true /\
    Snapshot.status (Snapshot.setDownloading 50 self) = "Loading Failed!" /\
    Snapshot.donwload_failed (Snapshot.setHA Example.ha_snapshot self) = false.
Proof.
  intros self0. exists (Snapshot.set_donwload_failed true self0).
  destruct (setDownloading_keeps_failure self0
              (Snapshot.set_donwload_failed true self0) eq_refl)
    as (_ & Hkeep & Hstatus & _ & Hclear).
  split_and!; [reflexivity | apply Hkeep | by apply Hstatus | apply Hclear].
Defined.

(** * Further properties of the three classes *)

Section more.
Context {datetime : Type}.
Implicit Type self : Snapshot.t datetime.
Implicit Type h : heap.

(** ** Drive snapshots and the heap *)

Lemma eq_str_true v s : eq_str v s = true <-> v = VStr s.
Proof.
  destruct v; cbn; try (split; [done|by intros [=]]).
  destruct (String.eqb_spec s0 s); split; congruence.
Qed.

Lemma flag_spec h lp (props : dict) k v :
  h !! lp = Some props ->
  props !! k = Some v ->
  DriveSnapshot.flag h (VRef lp) k
  = Ok (bool_decide (v = VStr "true" \/ v = VStr "True")).
Proof.
  intros Hprops Hk.
  unfold DriveSnapshot.flag, subscript, deref, dict_item.
  rewrite Hprops. cbn [mbind result_bind]. rewrite Hk.
  cbn [mbind result_bind].
  destruct (eq_str v "true") eqn:E1.
  { apply eq_str_true in E1. by rewrite bool_decide_eq_true_2 by eauto. }
  cbn [mbind result_bind]. f_equal.
  destruct (eq_str v "True") eqn:E2.
  { apply eq_str_true in E2. by rewrite bool_decide_eq_true_2 by eauto. }
  rewrite bool_decide_eq_false_2; [done|].
  intros [->| ->]; cbn in *; congruence.
Qed.

Lemma contains_flag_spec h lp (props : dict) k :
  h !! lp = Some props ->
  (b ← contains h (VRef lp) k;
   if b : bool then DriveSnapshot.flag h (VRef lp) k else Ok false)
  = Ok (bool_decide (props !! k = Some (VStr "true") \/
                     props !! k = Some (VStr "True"))).
Proof.
  intros Hprops. unfold contains, deref. rewrite Hprops.
  cbn [mbind result_bind].
  destruct (props !! k) as [v|] eqn:Hk.
  - rewrite bool_decide_eq_true_2 by eauto.
    rewrite (flag_spec _ _ _ _ _ Hprops Hk). f_equal.
    apply bool_decide_ext.
    split; (intros [E|E]; [left|right]; congruence).
  - rewrite bool_decide_eq_false_2 by (by intros [? ?]).
    rewrite bool_decide_eq_false_2; [done|]. by intros [|].
Qed.

(** X1: [retained()] and [protected()] of a Drive snapshot are true exactly
    when the property is stored as the string "true" or "True"; every other
    value, and the absence of the key, gives false without an error. *)
Theorem drive_flags_spelling h (self : DriveSnapshot.t datetime) lp
    (props : dict) :
  DriveSnapshot.appProperties h self = Ok (VRef lp) ->
  h !! lp = Some props ->
  DriveSnapshot.retained h self
  = Ok (bool_decide (props !! PROP_RETAINED = Some (VStr "true") \/
                     props !! PROP_RETAINED = Some (VStr "True"))) /\
  DriveSnapshot.protected h self
  = Ok (bool_decide (props !! PROP_PROTECTED = Some (VStr "true") \/
                     props !! PROP_PROTECTED = Some (VStr "True"))).
Proof.
  intros Happ Hprops.
  unfold DriveSnapshot.retained, DriveSnapshot.protected.
  rewrite Happ. cbn [mbind result_bind].
  split; by apply contains_flag_spec.
Qed.

(** What a successful [setRetain] did. *)
Lemma setRetain_inv (retain : value) (s : DriveSnapshot.t datetime) h h2 :
  DriveSnapshot.setRetain retain s h = Ok h2 ->
  exists text lp (props : dict),
    py_str retain = Ok text /\
    DriveSnapshot.appProperties h s = Ok (VRef lp) /\
    h !! lp = Some props /\
    h2 = <[lp := <[PROP_RETAINED := VStr text]> props]> h.
Proof.
  unfold DriveSnapshot.setRetain. intros Hset.
  destruct (py_str retain) as [text|] eqn:Htext;
    cbn [mbind result_bind] in Hset; [|done].
  destruct (DriveSnapshot.appProperties h s) as [v|] eqn:Happ;
    cbn [mbind result_bind] in Hset; [|done].
  destruct v as [| | | |lp]; try done.
  unfold DriveSnapshot.store_item, deref in Hset.
  destruct (h !! lp) as [props|] eqn:Hprops;
    cbn [mbind result_bind] in Hset; [|done].
  injection Hset as <-. by eexists _, _, _.
Qed.

Section store.
Variables (h : heap) (lp : loc) (props : dict) (x : value).
Hypothesis Hprops : h !! lp = Some props.
Local Abbreviation h2 := (<[lp := <[PROP_RETAINED := x]> props]> h).

Lemma store_deref_get l k :
  k <> PROP_RETAINED ->
  (fun d : dict => d !! k) <$> deref h2 l
  = (fun d : dict => d !! k) <$> deref h l.
Proof using Hprops.
  intros Hk. unfold deref.
  destruct (decide (lp = l)) as [->|Hne].
  - rewrite lookup_insert_eq, Hprops. cbn. by rewrite lookup_insert_ne.
  - by rewrite lookup_insert_ne.
Qed.

Lemma store_appProperties (s : DriveSnapshot.t datetime) :
  DriveSnapshot.appProperties h2 s = DriveSnapshot.appProperties h s.
Proof using Hprops.
  unfold DriveSnapshot.appProperties, dict_get.
  pose proof (store_deref_get (DriveSnapshot.source s) "appProperties") as E.
  specialize (E ltac:(discriminate)).
  destruct (deref h2 _), (deref h _);
    cbn [fmap result_fmap mbind result_bind] in *;
    try discriminate; injection E as E; by rewrite E.
Qed.

Lemma store_size (s : DriveSnapshot.t datetime) :
  DriveSnapshot.size h2 s = DriveSnapshot.size h s.
Proof using Hprops.
  unfold DriveSnapshot.size, dict_get.
  pose proof (store_deref_get (DriveSnapshot.source s) "size") as E.
  specialize (E ltac:(discriminate)).
  destruct (deref h2 _), (deref h _);
    cbn [fmap result_fmap mbind result_bind] in *;
    try discriminate; injection E as E; by rewrite E.
Qed.

Lemma store_subscript v k :
  k <> PROP_RETAINED -> subscript h2 v k = subscript h v k.
Proof using Hprops.
  intros Hk. destruct v as [| | | |l]; try done.
  unfold subscript, dict_item.
  pose proof (store_deref_get l k Hk) as E.
  destruct (deref h2 _), (deref h _);
    cbn [fmap result_fmap mbind result_bind] in *;
    try discriminate; injection E as E; by rewrite E.
Qed.

Lemma store_contains v k :
  k <> PROP_RETAINED -> contains h2 v k = contains h v k.
Proof using Hprops.
  intros Hk. destruct v as [| | | |l]; try done.
  unfold contains.
  pose proof (store_deref_get l k Hk) as E.
  destruct (deref h2 _), (deref h _);
    cbn [fmap result_fmap mbind result_bind] in *;
    try discriminate; injection E as E; by rewrite E.
Qed.

Lemma store_retained (s : DriveSnapshot.t datetime) :
  DriveSnapshot.appProperties h s = Ok (VRef lp) ->
  DriveSnapshot.retained h2 s
  = Ok (bool_decide (x = VStr "true" \/ x = VStr "True")).
Proof using Hprops.
  intros Happ. unfold DriveSnapshot.retained.
  rewrite store_appProperties, Happ. cbn [mbind result_bind].
  assert (h2 !! lp = Some (<[PROP_RETAINED := x]> props)) as Hlp
    by apply lookup_insert_eq.
  rewrite (contains_flag_spec _ _ _ _ Hlp), lookup_insert_eq. f_equal.
  apply bool_decide_ext.
  split; (intros [E|E]; [left|right]; congruence).
Qed.
End store.

(** X2: [setRetain(b)] is seen by every Drive snapshot whose
    ['appProperties'] is the same dictionary, the snapshot itself included:
    afterwards [retained()] of each is [b]. *)
Theorem setRetain_seen_by_sharers h (s1 s2 : DriveSnapshot.t datetime) lp
    (props : dict) (b : bool) :
  DriveSnapshot.appProperties h s1 = Ok (VRef lp) ->
  DriveSnapshot.appProperties h s2 = Ok (VRef lp) ->
  h !! lp = Some props ->
  exists h2 : heap,
    DriveSnapshot.setRetain (VBool b) s1 h = Ok h2 /\
    DriveSnapshot.retained h2 s1 = Ok b /\
    DriveSnapshot.retained h2 s2 = Ok b.
Proof.
  intros Happ1 Happ2 Hprops. eexists. split.
  { unfold DriveSnapshot.setRetain. cbn [py_str mbind result_bind].
    rewrite Happ1. cbn [mbind result_bind].
    unfold DriveSnapshot.store_item, deref. rewrite Hprops. reflexivity. }
  rewrite !(store_retained _ _ _ _ Hprops) by done.
  by destruct b.
Qed.

(** X3: [setRetain] writes the retained flag and nothing else: for every
    Drive snapshot, the one it was called on or any other, [name()],
    [slug()], [size()], [snapshotType()], [version()] and [protected()]
    return afterwards what they returned before. *)
Theorem setRetain_frame (retain : value) (self other : DriveSnapshot.t datetime)
    h h2 :
  DriveSnapshot.setRetain retain self h = Ok h2 ->
  DriveSnapshot.name h2 other = DriveSnapshot.name h other /\
  DriveSnapshot.slug h2 other = DriveSnapshot.slug h other /\
  DriveSnapshot.size h2 other = DriveSnapshot.size h other /\
  DriveSnapshot.snapshotType h2 other = DriveSnapshot.snapshotType h other /\
  DriveSnapshot.version h2 other = DriveSnapshot.version h other /\
  DriveSnapshot.protected h2 other = DriveSnapshot.protected h other.
Proof.
  intros (text & lp & props & _ & _ & Hprops & ->)%setRetain_inv.
  unfold DriveSnapshot.name, DriveSnapshot.slug, DriveSnapshot.snapshotType,
    DriveSnapshot.version, DriveSnapshot.protected, DriveSnapshot.flag.
  rewrite (store_size _ _ _ _ Hprops), (store_appProperties _ _ _ _ Hprops).
  destruct (DriveSnapshot.appProperties h other) as [v|]; [|done].
  cbn [mbind result_bind].
  by rewrite !(store_subscript _ _ _ _ Hprops), !(store_contains _ _ _ _ Hprops)
    by discriminate.
Qed.

(** What a successful construction read. *)
Lemma init_inv (parseDateTime : value -> result datetime) h source
    (s : DriveSnapshot.t datetime) h2 :
  DriveSnapshot.__init__ parseDateTime source h = Ok (s, h2) ->
  exists (d : dict) lp (props : dict) text,
    h !! source = Some d /\
    DriveSnapshot.source s = fresh (dom h) /\
    h2 = <[fresh (dom h) := d]> h /\
    d !! "appProperties" = Some (VRef lp) /\
    h2 !! lp = Some props /\
    props !! PROP_KEY_DATE = Some text /\
    parseDateTime text = Ok (DriveSnapshot.date s).
Proof.
  intros Hinit. destruct (h !! source) as [d|] eqn:Hsource.
  2: { unfold DriveSnapshot.__init__, dict_copy, deref in Hinit.
       by rewrite Hsource in Hinit. }
  unfold DriveSnapshot.__init__ in Hinit.
  rewrite (dict_copy_ok _ _ _ Hsource) in Hinit.
  cbn [mbind result_bind] in Hinit.
  unfold deref at 1 in Hinit. rewrite lookup_insert_eq in Hinit.
  cbn [mbind result_bind] in Hinit. unfold dict_get in Hinit.
  destruct (d !! "appProperties") as [[| | | |lp]|] eqn:Happ;
    cbn [default from_option id subscript mbind result_bind] in Hinit;
    try done.
  unfold deref in Hinit.
  destruct (_ !! lp) as [props|] eqn:Hprops;
    cbn [mbind result_bind] in Hinit; [|done].
  unfold dict_item in Hinit.
  destruct (props !! PROP_KEY_DATE) as [text|] eqn:Hdate;
    cbn [mbind result_bind] in Hinit; [|done].
  destruct (parseDateTime text) as [date|] eqn:Hparse;
    cbn [mbind result_bind] in Hinit; [|done].
  injection Hinit as <- <-.
  by eexists d, lp, props, text.
Qed.

(** X4: a Drive snapshot is constructed only from a record that exists,
    whose ['appProperties'] is a dictionary that has the date key, and whose
    date [parseDateTime] accepts; the snapshot's date is the parsed one. *)
Theorem init_succeeds_only_if (parseDateTime : value -> result datetime)
    h source (s : DriveSnapshot.t datetime) h2 :
  DriveSnapshot.__init__ parseDateTime source h = Ok (s, h2) ->
  exists (d : dict) lp (props : dict) text,
    h !! source = Some d /\
    d !! "appProperties" = Some (VRef lp) /\
    h2 !! lp = Some props /\
    props !! PROP_KEY_DATE = Some text /\
    parseDateTime text = Ok (DriveSnapshot.date s) /\
    DriveSnapshot.appProperties h2 s = Ok (VRef lp).
Proof.
  intros (d & lp & props & text & Hsource & Hs & -> & Happ & Hprops & Hdate
          & Hparse)%init_inv.
  exists d, lp, props, text. split_and!; try done.
  unfold DriveSnapshot.appProperties, deref.
  rewrite Hs, lookup_insert_eq. cbn. unfold dict_get. by rewrite Happ.
Qed.

(** X5: constructing a Drive snapshot changes no dictionary that exists:
    the copy goes to a location the heap did not have, holds the entries of
    the record, and every other location keeps its dictionary. *)
Theorem init_allocates_only (parseDateTime : value -> result datetime)
    h source (s : DriveSnapshot.t datetime) h2 :
  DriveSnapshot.__init__ parseDateTime source h = Ok (s, h2) ->
  h !! DriveSnapshot.source s = None /\
  h2 !! DriveSnapshot.source s = h !! source /\
  (forall l, l <> DriveSnapshot.source s -> h2 !! l = h !! l).
Proof.
  intros (d & lp & props & text & Hsource & Hs & -> & _)%init_inv.
  rewrite Hs, Hsource. split_and!.
  - apply not_elem_of_dom, is_fresh.
  - apply lookup_insert_eq.
  - intros l Hl. by rewrite lookup_insert_ne.
Qed.

(** ** Home Assistant snapshots *)

(** X6: a Home Assistant snapshot is constructed exactly when the record
    exists, has a ['date'] entry and [parseDateTime] accepts it; it then
    holds the record's entries, the given retention and the parsed date.
    No other key is looked at. *)
Theorem ha_init_iff (parseDateTime : value -> result datetime) h source
    (retained : bool) (s : HASnapshot.t datetime) :
  HASnapshot.__init__ parseDateTime source retained h = Ok s <->
  exists (d : dict) text date,
    h !! source = Some d /\ d !! "date" = Some text /\
    parseDateTime text = Ok date /\ s = HASnapshot.mk d retained date.
Proof.
  unfold HASnapshot.__init__, deref, dict_item. split.
  - intros Hinit.
    destruct (h !! source) as [d|] eqn:Hsource;
      cbn [mbind result_bind] in Hinit; [|done].
    destruct (d !! "date") as [text|] eqn:Hdate;
      cbn [mbind result_bind] in Hinit; [|done].
    destruct (parseDateTime text) as [date|] eqn:Hparse;
      cbn [mbind result_bind] in Hinit; [|done].
    injection Hinit as <-. by exists d, text, date.
  - intros (d & text & date & -> & Hdate & Hparse & ->).
    cbn [mbind result_bind]. rewrite Hdate. cbn [mbind result_bind].
    by rewrite Hparse.
Qed.

(** ** Sizes of the aggregate *)

(** X7: for a size below 2^53 the float arithmetic of [sizeString()] is
    exact, and the label is the size in bytes up to 1024, else the floor of
    the size in kB up to 1024*1024, else in MB up to 1024*1024*1024, else in
    GB. *)
Theorem sizeString_floor h self n :
  Snapshot.size h self = Ok (VInt n) ->
  Z.abs n < 2 ^ 53 ->
  Snapshot.sizeString h self
  = Ok (if n <=? 1024 then str_int n ++ " B"
        else if n <=? 1024 * 1024 then str_int (n / 1024) ++ " kB"
        else if n <=? 1024 * 1024 * 1024
             then str_int (n / (1024 * 1024)) ++ " MB"
        else str_int (n / (1024 * 1024 * 1024)) ++ " GB").
Proof.
  intros Hsize Hn. unfold Snapshot.sizeString. rewrite Hsize.
  cbn [mbind result_bind py_float]. rewrite (float_of_int_exact n Hn).
  cbn [mbind result_bind].
  destruct (Z.leb_spec n 1024); [done|].
  rewrite !Z.quot_div_nonneg by lia.
  by destruct (n <=? 1024 * 1024), (n <=? 1024 * 1024 * 1024).
Qed.

(** X8: a local-only aggregate whose record gives its size as [n] MiB, for
    [n] from 2 to 1024, is labelled "n MB"; one of 1 MiB is labelled
    "1024 kB". *)
Theorem local_sizeString_MiB h self (l : HASnapshot.t datetime) n :
  Snapshot.driveitem self = None ->
  Snapshot.ha self = Some l ->
  HASnapshot.source l !! "size" = Some (VInt n) ->
  1 <= n <= 1024 ->
  Snapshot.sizeString h self
  = Ok (if n =? 1 then "1024 kB" else str_int n ++ " MB").
Proof.
  intros Hd Hl Hsize Hn.
  unfold Snapshot.sizeString, Snapshot.size. rewrite Hd, Hl.
  unfold HASnapshot.size, dict_item. rewrite Hsize.
  cbn [mbind result_bind fmap result_fmap py_int py_float].
  rewrite float_of_int_exact by (change (2 ^ 53) with 9007199254740992; lia).
  cbn [mbind result_bind].
  destruct (Z.leb_spec (n * 1024 * 1024) 1024); [lia|].
  destruct (Z.eqb_spec n 1) as [->|Hne]; [done|].
  destruct (Z.leb_spec (n * 1024 * 1024) (1024 * 1024)); [lia|].
  destruct (Z.leb_spec (n * 1024 * 1024) (1024 * 1024 * 1024)); [|lia].
  by rewrite <- Z.mul_assoc, Z.quot_mul by lia.
Qed.

(** ** What the mutators keep *)

(** A property that every admitted call keeps is kept by a sequence of
    admitted calls. *)
Lemma exec_all_keeps (P : Snapshot.t datetime -> Prop)
    (admitted : Snapshot.call datetime -> Prop) :
  (forall c self self',
     admitted c -> P self -> Snapshot.exec c self = Ok self' -> P self') ->
  forall cs self self',
    Forall admitted cs -> P self ->
    Snapshot.exec_all cs self = Ok self' -> P self'.
Proof.
  intros Hstep cs. induction cs as [|c cs IH]; intros self self' Hcs HP Hexec.
  - by injection Hexec as <-.
  - cbn in Hexec. destruct (Snapshot.exec c self) as [mid|] eqn:Hc; [|done].
    cbn in Hexec. inversion_clear Hcs as [|? ? Hc' Hcs'].
    eapply IH; [done| |done]. by eapply Hstep.
Qed.

Lemma Forall_True {A} (l : list A) : Forall (fun _ => True) l.
Proof. by apply Forall_forall. Qed.

(** A successful call is one of two shapes: a setter, always; or
    [downloadFailed()] while the method is not hidden. *)
Lemma exec_inv (c : Snapshot.call datetime) self self' :
  Snapshot.exec c self = Ok self' ->
  (c = Snapshot.DownloadFailed /\ Snapshot.downloadFailed_attr self = None /\
   self' = Snapshot.set_donwload_failed true self) \/
  (c <> Snapshot.DownloadFailed /\ Snapshot.exec c self = Ok self').
Proof.
  intros Hexec. destruct c; try (right; by split).
  left. cbn in Hexec. unfold Snapshot.downloadFailed in Hexec.
  destruct (Snapshot.downloadFailed_attr self); [done|].
  by injection Hexec as <-.
Qed.

Lemma exec_keeps_attached (c : Snapshot.call datetime) self self' :
  Snapshot.isInDrive self || Snapshot.isInHA self || Snapshot.pending self
  = true ->
  Snapshot.exec c self = Ok self' ->
  Snapshot.isInDrive self' || Snapshot.isInHA self' || Snapshot.pending self'
  = true.
Proof.
  intros Hinv [(-> & _ & ->)|[Hne Hexec]]%exec_inv; [by destruct self|].
  destruct self as [d p l dl df pn pd ps up pf wb r dd dh rd rh dr da].
  destruct c; try done; cbn in Hexec; injection Hexec as <-;
    try destruct snapshot;
    unfold Snapshot.isInDrive, Snapshot.isInHA in *; cbn in *;
    by destruct d, l.
Qed.

Lemma status_of_attached self :
  Snapshot.isInDrive self || Snapshot.isInHA self || Snapshot.pending self
  = true ->
  Snapshot.status self <> "Invalid State".
Proof.
  destruct self as [d p l dl df pn pd ps up pf wb r dd dh rd rh dr da].
  unfold Snapshot.status, Snapshot.isRestoring, Snapshot.isDownloading,
    Snapshot.isInDrive, Snapshot.isInHA.
  cbn. intros Hinv.
  destruct r as [[]|]; cbn; try discriminate.
  destruct (0 <=? dl).
  { destruct df; [discriminate|]. destruct (dl =? 100); discriminate. }
  destruct d, l; cbn in *; try discriminate.
  - destruct (0 <=? up); [discriminate|]. destruct wb; discriminate.
  - by subst p.
Qed.

(** X9: every aggregate that [Snapshot(...)] constructs has a record or is
    pending, every mutator keeps it so, and so [status()] is never
    "Invalid State" after any sequence of mutator calls. *)
Theorem invalid_state_unreachable
    (snapshot : option (AbstractSnapshot datetime)) cs self :
  Snapshot.exec_all cs (Snapshot.__init__ snapshot) = Ok self ->
  Snapshot.isInDrive self || Snapshot.isInHA self || Snapshot.pending self
  = true /\
  Snapshot.status self <> "Invalid State".
Proof.
  intros Hexec.
  assert (Snapshot.isInDrive self || Snapshot.isInHA self
          || Snapshot.pending self = true) as Hinv.
  { apply (exec_all_keeps
             (fun s => Snapshot.isInDrive s || Snapshot.isInHA s
                       || Snapshot.pending s = true)
             (fun _ => True)) with cs (Snapshot.__init__ snapshot).
    - intros c s s' _. apply exec_keeps_attached.
    - apply Forall_True.
    - by destruct snapshot as [[]|].
    - done. }
  split; [done|]. by apply status_of_attached.
Qed.

(** No call removes the instance attribute [downloadFailed], and while it
    exists no call sets [donwload_failed]. *)
Lemma exec_keeps_hidden (c : Snapshot.call datetime) self self' :
  is_Some (Snapshot.downloadFailed_attr self) ->
  Snapshot.exec c self = Ok self' ->
  c <> Snapshot.DownloadFailed /\
  is_Some (Snapshot.downloadFailed_attr self') /\
  (Snapshot.donwload_failed self = false ->
   Snapshot.donwload_failed self' = false).
Proof.
  intros [a Ha] [(-> & Hnone & ->)|[Hne Hexec]]%exec_inv; [congruence|].
  split; [done|].
  destruct self as [d p l dl df pn pd ps up pf wb r dd dh rd rh dr da].
  destruct c; try done; cbn in Hexec; injection Hexec as <-;
    try destruct snapshot; cbn in *; by eauto.
Qed.

(** X10: once [setDownloading] has been called, [downloadFailed()] raises
    [TypeError] for the rest of the aggregate's life, whatever is called in
    between: no run of mutator calls that goes through has a
    [downloadFailed()] in it, and a failure flag that was not set stays
    unset. *)
Theorem downloadFailed_dead_after_setDownloading self p cs self' :
  Snapshot.exec_all cs (Snapshot.setDownloading p self) = Ok self' ->
  Snapshot.downloadFailed self' = Raise TypeError /\
  ~ In Snapshot.DownloadFailed cs /\
  (Snapshot.donwload_failed self = false ->
   Snapshot.donwload_failed self' = false).
Proof.
  assert (forall cs (s s' : Snapshot.t datetime),
            is_Some (Snapshot.downloadFailed_attr s) ->
            Snapshot.exec_all cs s = Ok s' ->
            is_Some (Snapshot.downloadFailed_attr s') /\
            ~ In Snapshot.DownloadFailed cs /\
            (Snapshot.donwload_failed s = false ->
             Snapshot.donwload_failed s' = false)) as Hall.
  { clear. intros cs. induction cs as [|c cs IH]; intros s s' Hs Hexec.
    - injection Hexec as <-. by split_and!; [|intros []|].
    - cbn in Hexec.
      destruct (Snapshot.exec c s) as [mid|] eqn:Hc; [|done].
      cbn in Hexec.
      destruct (exec_keeps_hidden c s mid Hs Hc) as (Hne & Hmid & Hflag).
      destruct (IH mid s' Hmid Hexec) as (Hs' & Hnot & Hflag').
      split_and!; [done| |by eauto].
      intros [E|Hin]; [by apply Hne|by apply Hnot]. }
  intros Hexec.
  destruct (Hall cs (Snapshot.setDownloading p self) self') as ([a Ha] & ? & Hf);
    [by destruct self|done|].
  split_and!; [|done|].
  - unfold Snapshot.downloadFailed. by rewrite Ha.
  - intros Hflag. apply Hf. by destruct self.
Qed.

Lemma exec_keeps_pendingHasFailed (c : Snapshot.call datetime) self self' :
  Snapshot.pendingHasFailed self = true ->
  Snapshot.exec c self = Ok self' ->
  Snapshot.pendingHasFailed self' = true.
Proof.
  intros Hf [(-> & _ & ->)|[Hne Hexec]]%exec_inv; [by destruct self|].
  destruct self as [d p l dl df pn pd ps up pf wb r dd dh rd rh dr da].
  destruct c; try done; cbn in Hexec; injection Hexec as <-;
    try destruct snapshot; by cbn in *.
Qed.

(** X11: a failed pending creation is final.  No mutator resets
    [pendingHasFailed], so after [pendingFailed()] the aggregate is never
    pending again, not even after another [setPending]. *)
Theorem pendingFailed_is_final self cs self' :
  Snapshot.exec_all cs (Snapshot.pendingFailed self) = Ok self' ->
  Snapshot.pendingHasFailed self' = true /\
  Snapshot.isPending self' = false.
Proof.
  intros Hexec.
  assert (Snapshot.pendingHasFailed self' = true) as Hf.
  { apply (exec_all_keeps (fun s => Snapshot.pendingHasFailed s = true)
             (fun _ => True)) with cs (Snapshot.pendingFailed self).
    - intros c s s' _. apply exec_keeps_pendingHasFailed.
    - apply Forall_True.
    - by destruct self.
    - done. }
  split; [done|]. unfold Snapshot.isPending. rewrite Hf.
  by rewrite andb_false_r.
Qed.

(** X12: a pending placeholder whose creation has failed counts as deleted
    and goes on displaying "Pending": [status()] tests [pending] alone,
    [isDeleted()] tests [isPending()]. *)
Theorem failed_placeholder_is_deleted_and_pending self :
  Snapshot.driveitem self = None ->
  Snapshot.ha self = None ->
  Snapshot.pending self = true ->
  Snapshot.restoring self = None ->
  Snapshot.donwloading self < 0 ->
  Snapshot.isPending (Snapshot.pendingFailed self) = false /\
  Snapshot.isDeleted (Snapshot.pendingFailed self) = true /\
  Snapshot.status (Snapshot.pendingFailed self) = "Pending".
Proof.
  destruct self as [d p l dl df pn pd ps up pf wb r dd dh rd rh dr da].
  cbn. intros -> -> -> -> Hdl.
  unfold Snapshot.status, Snapshot.isRestoring, Snapshot.isDownloading.
  cbn. by destruct (Z.leb_spec 0 dl); [lia|].
Qed.

(** X13: attaching a record ends the transfer it completes.  When no
    restore is under way, after [setHA] the status is "Backed Up" if a Drive
    record is attached, else "Waiting" or "Hass.io Only" as [will_backup]
    says, whatever the download and upload progress were; after [setDrive],
    when no download is under way, it is "Backed Up" if a local record is
    attached, else "Drive Only", whatever the upload progress was. *)
Theorem status_after_attach self :
  Snapshot.restoring self = None ->
  (forall l,
     Snapshot.status (Snapshot.setHA l self)
     = if Snapshot.isInDrive self then "Backed Up"
       else if Snapshot.will_backup self then "Waiting" else "Hass.io Only") /\
  (forall d,
     Snapshot.donwloading self < 0 ->
     Snapshot.status (Snapshot.setDrive d self)
     = if Snapshot.isInHA self then "Backed Up" else "Drive Only").
Proof.
  destruct self as [d p l dl df pn pd ps up pf wb r dd dh rd rh dr da].
  cbn. intros ->.
  unfold Snapshot.status, Snapshot.isRestoring, Snapshot.isDownloading,
    Snapshot.isInDrive, Snapshot.isInHA.
  split.
  - intros l'. cbn. by destruct d.
  - intros d' Hdl. cbn. destruct (Z.leb_spec 0 dl); [lia|]. by destruct l.
Qed.

(** X14: the life of a pending placeholder.  On an aggregate without
    records, after [setPending(name, date, ...)] the slug is "PENDING", the
    date is the given one, the name is the given one unless it is empty,
    when it is "error"; [endPending(slug)] replaces the slug, with "error"
    for an empty one, and leaves the aggregate pending. *)
Theorem pending_placeholder_lifecycle self name date retain_drive retain_ha
    h now :
  Snapshot.driveitem self = None ->
  Snapshot.ha self = None ->
  let pended := Snapshot.setPending name date retain_drive retain_ha self in
  Snapshot.name h pended
  = Ok (VStr (if String.eqb name "" then "error" else name)) /\
  Snapshot.slug h pended = Ok (VStr "PENDING") /\
  Snapshot.date now pended = date /\
  (forall slug,
     Snapshot.slug h (Snapshot.endPending slug pended)
     = Ok (VStr (if String.eqb slug "" then "error" else slug)) /\
     Snapshot.pending (Snapshot.endPending slug pended) = true).
Proof.
  destruct self as [d p l dl df pn pd ps up pf wb r dd dh rd rh dr da].
  cbn. intros -> ->. unfold Snapshot.name, Snapshot.slug. cbn.
  split_and!; try done.
  - by destruct (String.eqb name "").
  - intros slug. by destruct (String.eqb slug "").
Qed.

Lemma exec_keeps_retain_intent (c : Snapshot.call datetime) self self' :
  (forall name date retain_drive retain_ha,
     c <> Snapshot.SetPending name date retain_drive retain_ha) ->
  Snapshot.exec c self = Ok self' ->
  Snapshot._pending_retain_drive self' = Snapshot._pending_retain_drive self /\
  Snapshot._pending_retain_ha self' = Snapshot._pending_retain_ha self.
Proof.
  intros Hc [(-> & _ & ->)|[Hne Hexec]]%exec_inv; [by destruct self|].
  destruct self as [d p l dl df pn pd ps up pf wb r dd dh rd rh dr da].
  destruct c; try done; cbn in Hexec; injection Hexec as <-;
    try destruct snapshot; cbn in *; try done.
  by edestruct Hc.
Qed.

(** X15: the retention intents of [setPending] outlive the pending state.
    Only [setPending] writes them, so after [setPending(.., retain_drive,
    retain_ha)] and any calls other than [setPending], an aggregate with a
    local record is [haRetained()] if [retain_ha] was true, and one with a
    Drive record whose [retained()] can be read is [driveRetained()] if
    [retain_drive] was true. *)
Theorem retain_intent_is_sticky self name date (retain_drive retain_ha : bool)
    cs self' :
  Forall (fun c => forall n d rd rh, c <> Snapshot.SetPending n d rd rh) cs ->
  Snapshot.exec_all cs
    (Snapshot.setPending name date retain_drive retain_ha self) = Ok self' ->
  (retain_ha = true ->
   Snapshot.haRetained self' = Snapshot.isInHA self') /\
  (retain_drive = true ->
   forall h d r,
     Snapshot.driveitem self' = Some d ->
     DriveSnapshot.retained h d = Ok r ->
     Snapshot.driveRetained h self' = Ok true).
Proof.
  intros Hcs Hexec.
  assert (Snapshot._pending_retain_drive self' = retain_drive /\
          Snapshot._pending_retain_ha self' = retain_ha) as [Hrd Hrh].
  { apply (exec_all_keeps
             (fun s => Snapshot._pending_retain_drive s = retain_drive /\
                       Snapshot._pending_retain_ha s = retain_ha)
             (fun c => forall n d rd rh, c <> Snapshot.SetPending n d rd rh))
      with cs (Snapshot.setPending name date retain_drive retain_ha self);
      [|done|by destruct self|done].
    intros c s s' Hc [<- <-] Hstep.
    by apply (exec_keeps_retain_intent c). }
  split.
  - intros ->. unfold Snapshot.haRetained, Snapshot.isInHA.
    destruct (Snapshot.ha self'); [|done]. by rewrite Hrh, orb_true_r.
  - intros -> h d r Hd Hr. unfold Snapshot.driveRetained.
    rewrite Hd, Hr. cbn. by rewrite Hrd, orb_true_r.
Qed.

End more.

(** * The further properties on the concrete records *)

Lemma drive_flags_spelling_witness :
  DriveSnapshot.retained Example.h_retained Example.drive_snapshot = Ok true /\
  DriveSnapshot.protected Example.h_retained Example.drive_snapshot
  = Ok false.
Proof.
  destruct (drive_flags_spelling Example.h_retained Example.drive_snapshot
              2%positive
              (<[PROP_RETAINED := VStr "True"]> Example.drive_props)
              eq_refl eq_refl) as [Hretained Hprotected].
  split; [exact Hretained | exact Hprotected].
Defined.

Lemma setRetain_seen_by_sharers_witness :
  exists h3 : heap,
    DriveSnapshot.setRetain (VBool true) Example.drive_snapshot Example.h2
    = Ok h3 /\
    DriveSnapshot.retained h3 Example.drive_snapshot = Ok true /\
    DriveSnapshot.retained h3 Example.drive_snapshot2 = Ok true.
Proof.
  apply (setRetain_seen_by_sharers Example.h2 Example.drive_snapshot
           Example.drive_snapshot2 2%positive Example.drive_props true);
    reflexivity.
Defined.

Lemma setRetain_frame_witness :
  DriveSnapshot.setRetain (VBool true) Example.drive_snapshot Example.h2
  = Ok Example.h_retained /\
  DriveSnapshot.name Example.h_retained Example.drive_snapshot2
  = Ok (VStr "Full Snapshot") /\
  DriveSnapshot.version Example.h_retained Example.drive_snapshot2
  = Ok (VStr "0.92.2").
Proof.
  assert (DriveSnapshot.setRetain (VBool true) Example.drive_snapshot
            Example.h2 = Ok Example.h_retained) as Hset
    by (vm_compute; reflexivity).
  destruct (setRetain_frame (VBool true) Example.drive_snapshot
              Example.drive_snapshot2 Example.h2 Example.h_retained Hset)
    as (Hname & _ & _ & _ & Hversion & _).
  split_and!; [exact Hset | by rewrite Hname | by rewrite Hversion].
Defined.

Lemma init_succeeds_only_if_witness :
  exists (d : dict) lp (props : dict) text,
    Example.h0 !! 1%positive = Some d /\
    d !! "appProperties" = Some (VRef lp) /\
    Example.h1 !! lp = Some props /\
    props !! PROP_KEY_DATE = Some text /\
    Example.parseDateTime text
    = Ok (DriveSnapshot.date Example.drive_snapshot) /\
    DriveSnapshot.appProperties Example.h1 Example.drive_snapshot
    = Ok (VRef lp).
Proof.
  apply (init_succeeds_only_if Example.parseDateTime Example.h0 1%positive
           Example.drive_snapshot Example.h1).
  vm_compute. reflexivity.
Defined.

Lemma init_allocates_only_witness :
  Example.h0 !! 4%positive = None /\
  Example.h1 !! 4%positive = Example.h0 !! 1%positive /\
  (forall l, l <> 4%positive -> Example.h1 !! l = Example.h0 !! l).
Proof.
  apply (init_allocates_only Example.parseDateTime Example.h0 1%positive
           Example.drive_snapshot Example.h1).
  vm_compute. reflexivity.
Defined.

Lemma sizeString_floor_witness :
  let self := Snapshot.__init__ (Some (IsDrive Example.drive_snapshot)) in
  Snapshot.size (Example.h_sized 1536) self = Ok (VInt 1536) /\
  Snapshot.sizeString (Example.h_sized 1536) self = Ok "1 kB".
Proof.
  intros self. split; [reflexivity|].
  apply (sizeString_floor (Example.h_sized 1536) self 1536); reflexivity.
Defined.

Lemma local_sizeString_MiB_witness :
  Snapshot.sizeString Example.h1
    (Snapshot.__init__ (Some (IsHA Example.ha_snapshot)))
  = Ok "1024 kB".
Proof.
  apply (local_sizeString_MiB Example.h1
           (Snapshot.__init__ (Some (IsHA Example.ha_snapshot)))
           Example.ha_snapshot 1); try reflexivity.
  split; discriminate.
Defined.

Lemma invalid_state_unreachable_witness :
  let cs :=
    [Snapshot.SetPending "n" Example.now true false;
     Snapshot.SetHA Example.ha_snapshot;
     Snapshot.SetDrive Example.drive_snapshot;
     Snapshot.PendingFailed] in
  exists self,
    Snapshot.exec_all cs (Snapshot.__init__ (datetime := string) None) = Ok self /\
    Snapshot.isInDrive self || Snapshot.isInHA self || Snapshot.pending self
    = true /\
    Snapshot.status self <> "Invalid State".
Proof.
  intros cs. eexists. split; [reflexivity|].
  apply (invalid_state_unreachable None cs). reflexivity.
Defined.

Lemma downloadFailed_dead_after_setDownloading_witness :
  let self := Snapshot.__init__ (Some (IsDrive Example.drive_snapshot)) in
  let cs := [Snapshot.Uploading 5; Snapshot.SetHA Example.ha_snapshot] in
  exists self',
    Snapshot.exec_all cs (Snapshot.setDownloading 10 self) = Ok self' /\
    Snapshot.downloadFailed self' = Raise TypeError /\
    Snapshot.donwload_failed self' = false.
Proof.
  intros self cs. eexists. split; [reflexivity|].
  destruct (downloadFailed_dead_after_setDownloading self 10 cs _ eq_refl)
    as (Hdead & _ & Hflag).
  split; [exact Hdead | by apply Hflag].
Defined.

Lemma pendingFailed_is_final_witness :
  let cs := [Snapshot.SetPending "n" Example.now false false] in
  exists self',
    Snapshot.exec_all cs (Snapshot.pendingFailed (Snapshot.__init__ (datetime := string) None))
    = Ok self' /\
    Snapshot.pending self' = true /\
    Snapshot.pendingHasFailed self' = true /\
    Snapshot.isPending self' = false.
Proof.
  intros cs. eexists. split_and!; [reflexivity..|].
  apply (pendingFailed_is_final (Snapshot.__init__ (datetime := string) None) cs). reflexivity.
Defined.

Lemma failed_placeholder_is_deleted_and_pending_witness :
  let failed := Snapshot.pendingFailed (Snapshot.__init__ (datetime := string) None) in
  Snapshot.isPending failed = false /\
  Snapshot.isDeleted failed = true /\
  Snapshot.status failed = "Pending".
Proof.
  intros failed.
  apply (failed_placeholder_is_deleted_and_pending (Snapshot.__init__ (datetime := string) None));
    reflexivity.
Defined.

Lemma status_after_attach_witness :
  let self :=
    Snapshot.setDownloading 50
      (Snapshot.__init__ (Some (IsDrive Example.drive_snapshot))) in
  Snapshot.status self = "Loading 50%" /\
  Snapshot.status (Snapshot.setHA Example.ha_snapshot self) = "Backed Up".
Proof.
  intros self. split; [reflexivity|].
  apply (proj1 (status_after_attach self eq_refl) Example.ha_snapshot).
Defined.

Lemma pending_placeholder_lifecycle_witness :
  let pended :=
    Snapshot.setPending "" Example.now false false (Snapshot.__init__ (datetime := string) None) in
  Snapshot.name Example.h1 pended = Ok (VStr "error") /\
  Snapshot.slug Example.h1 pended = Ok (VStr "PENDING") /\
  Snapshot.slug Example.h1 (Snapshot.endPending "abc123" pended)
  = Ok (VStr "abc123").
Proof.
  intros pended.
  destruct (pending_placeholder_lifecycle (Snapshot.__init__ (datetime := string) None) ""
              Example.now false false Example.h1 Example.now eq_refl eq_refl)
    as (Hname & Hslug & _ & Hend).
  split_and!; [exact Hname | exact Hslug | exact (proj1 (Hend "abc123"))].
Defined.

Lemma retain_intent_is_sticky_witness :
  let cs :=
    [Snapshot.SetHA Example.ha_snapshot; Snapshot.Uploading 10;
     Snapshot.SetDrive Example.drive_snapshot] in
  exists self',
    Snapshot.exec_all cs
      (Snapshot.setPending "n" Example.now true true (Snapshot.__init__ (datetime := string) None))
    = Ok self' /\
    HASnapshot.retained Example.ha_snapshot = false /\
    DriveSnapshot.retained Example.h1 Example.drive_snapshot = Ok false /\
    Snapshot.haRetained self' = true /\
    Snapshot.driveRetained Example.h1 self' = Ok true.
Proof.
  intros cs. eexists. split_and!; [reflexivity..| |].
  - apply (proj1 (retain_intent_is_sticky (Snapshot.__init__ (datetime := string) None) "n"
                    Example.now true true cs _
                    ltac:(repeat constructor; discriminate) eq_refl)
             eq_refl).
  - apply (proj2 (retain_intent_is_sticky (Snapshot.__init__ (datetime := string) None) "n"
                    Example.now true true cs _
                    ltac:(repeat constructor; discriminate) eq_refl)
             eq_refl Example.h1 Example.drive_snapshot false);
      reflexivity.
Defined.
